(** * export_data.py: the type normalizer and the export orchestrator

    A shallow embedding of [lesson7_files/export_data.py].  Python values are
    an inductive type, Python mappings are insertion-ordered association
    lists, exceptions are an error monad, and the output directory is a
    finite map from paths to file contents. *)

From Stdlib Require Import ZArith QArith List Bool Ascii Lia.
From Stdlib Require Import Floats.SpecFloat.
From stdpp Require Import base strings gmap.
Import ListNotations.

Local Open Scope string_scope.
Local Open Scope list_scope.
Local Open Scope Z_scope.

(** ** Python values *)

(** Hashable scalars, the keys of a mapping and the labels of a pandas index.
    [KOpaque] stands for any other hashable object (a timestamp, a tuple). *)
Inductive key : Type :=
| KNone
| KBool (b : bool)
| KInt (z : Z)
| KFloat (f : spec_float)
| KStr (s : string)
| KOpaque (tag : string).

(** The items of an array of integer, floating, boolean or string dtype, in
    row-major order. *)
Inductive np_data : Type :=
| NpInts (items : list Z)
| NpFloats (items : list spec_float)
| NpBools (items : list bool)
| NpStrs (items : list string).

(** The values that flow from the loader and the calculator into the script.
    Floats are IEEE-754 data ([spec_float]); the script never computes with
    them, it only moves and compares them.  [VNpInt] and [VNpFloat] are
    numpy's [np.integer] and [np.floating] scalars.  [VNdArray] is an
    [np.ndarray] of integer, floating, boolean or string dtype, given by its
    shape and its items; [VObjArray] is an [np.ndarray] of object dtype,
    whose items are arbitrary objects (numpy scalars and arrays among them).
    A
    [VDataFrame] is row-oriented: index labels, column labels, and one list
    of cells per row.  [VNA] and [VNaT] are pandas' [pd.NA] and [pd.NaT].
    [VOpaque] is an object of any other type; it has neither a [get] nor a
    [to_dict] attribute. *)
#[local] Unset Elimination Schemes.
Inductive value : Type :=
| VNone
| VBool (b : bool)
| VInt (z : Z)
| VFloat (f : spec_float)
| VStr (s : string)
| VList (l : list value)
| VDict (d : list (key * value))
| VNpInt (z : Z)
| VNpFloat (f : spec_float)
| VNdArray (shape : list nat) (data : np_data)
| VDataFrame (index : list key) (columns : list key) (rows : list (list value))
| VSeries (index : list key) (vals : list value)
| VOpaque (tag : string)
| VObjArray (shape : list nat) (items : list value)
| VNA
| VNaT.
#[local] Set Elimination Schemes.

Definition dict : Type := list (key * value).

(** ** Equality of keys, as Python's [==] on hashable scalars *)

Inductive num : Type :=
| NQ (q : Q)
| NInf (negative : bool)
| NNan.

Definition float_num (f : spec_float) : num :=
  match f with
  | S754_zero _ => NQ 0%Q
  | S754_infinity s => NInf s
  | S754_nan => NNan
  | S754_finite s m e =>
      let q := match e with
               | Z0 => inject_Z (Zpos m)
               | Zpos p => inject_Z (Zpos m * 2 ^ Zpos p)
               | Zneg p => Qmake (Zpos m) (2 ^ p)%positive
               end in
      NQ (if s then Qopp q else q)
  end.

Definition num_eqb (a b : num) : bool :=
  match a, b with
  | NQ p, NQ q => Qeq_bool p q
  | NInf s, NInf t => Bool.eqb s t
  | _, _ => false
  end.

(** [True == 1 == 1.0]: booleans, integers and floats compare by value. *)
Definition key_num (k : key) : option num :=
  match k with
  | KBool b => Some (NQ (inject_Z (Z.b2z b)))
  | KInt z => Some (NQ (inject_Z z))
  | KFloat f => Some (float_num f)
  | _ => None
  end.

Definition key_eqb (a b : key) : bool :=
  match a, b with
  | KNone, KNone => true
  | KStr s, KStr t => String.eqb s t
  | KOpaque s, KOpaque t => String.eqb s t
  | _, _ =>
      match key_num a, key_num b with
      | Some x, Some y => num_eqb x y
      | _, _ => false
      end
  end.

(** ** Insertion-ordered mappings

    A Python [dict] is an association list whose keys are pairwise different
    under [key_eqb]; [dict_set] is [d[k] = v] and keeps that invariant. *)

Fixpoint dict_get (d : dict) (k : key) : option value :=
  match d with
  | [] => None
  | (k', v) :: d' => if key_eqb k' k then Some v else dict_get d' k
  end.

Fixpoint dict_set (d : dict) (k : key) (v : value) : dict :=
  match d with
  | [] => [(k, v)]
  | (k', v') :: d' =>
      if key_eqb k' k then (k', v) :: d' else (k', v') :: dict_set d' k v
  end.

(** [dict(pairs)]: later pairs overwrite earlier ones. *)
Definition dict_of_pairs (l : list (key * value)) : dict :=
  fold_left (fun d kv => dict_set d (fst kv) (snd kv)) l [].

Definition dict_keys (d : dict) : list key := map fst d.

Fixpoint keys_distinct (ks : list key) : bool :=
  match ks with
  | [] => true
  | k :: ks' => negb (existsb (key_eqb k) ks') && keys_distinct ks'
  end.

(** ** pandas and numpy conversions used by the script *)

(** pandas' [maybe_box_native]: a numpy scalar becomes the native scalar. *)
Definition box_native (v : value) : value :=
  match v with
  | VNpInt z => VInt z
  | VNpFloat f => VFloat f
  | _ => v
  end.

(** [DataFrame.to_dict(orient='records')]: one mapping per row, from column
    label to the boxed cell. *)
Definition row_to_dict (columns : list key) (row : list value) : dict :=
  dict_of_pairs (combine columns (map box_native row)).

Definition df_to_dict_records (columns : list key) (rows : list (list value))
  : list dict :=
  map (row_to_dict columns) rows.

(** [Series.to_dict()]: from index label to the boxed value. *)
Definition series_to_dict (index : list key) (vals : list value) : dict :=
  dict_of_pairs (combine index (map box_native vals)).

(** The items of a typed array as native scalars ([ndarray.item]). *)
Definition np_natives (data : np_data) : list value :=
  match data with
  | NpInts items => map VInt items
  | NpFloats items => map VFloat items
  | NpBools items => map VBool items
  | NpStrs items => map VStr items
  end.

(** The number of items of an array of a given shape. *)
Definition shape_size (shape : list nat) : nat := fold_right Nat.mul 1%nat shape.

(** [n] consecutive chunks of [k] items. *)
Fixpoint chunks {A} (n k : nat) (xs : list A) : list (list A) :=
  match n with
  | O => []
  | S n' => firstn k xs :: chunks n' k (skipn k xs)
  end.

(** Row-major items nested along the axes of a shape; an array without axes
    holds one item. *)
Fixpoint nest (shape : list nat) (xs : list value) : value :=
  match shape with
  | [] => hd VNone xs
  | n :: rest => VList (map (nest rest) (chunks n (shape_size rest) xs))
  end.

(** [ndarray.tolist()]: nested lists, of native scalars for a typed array
    and of the stored objects, as they are, for an array of object dtype. *)
Definition ndarray_tolist (shape : list nat) (data : np_data) : value :=
  nest shape (np_natives data).

Definition objarray_tolist (shape : list nat) (items : list value) : value :=
  nest shape items.

(** ** The type normalizer (export_data.py, lines 21-38) *)

Fixpoint to_python_types (data : value) : value :=
  match data with
  | VDataFrame _ columns rows => VList (map VDict (df_to_dict_records columns rows))
  | VSeries index vals => VDict (series_to_dict index vals)
  | VNpInt z => VInt z
  | VNpFloat f => VFloat f
  | VNdArray shape data => ndarray_tolist shape data
  | VObjArray shape items => objarray_tolist shape items
  | VDict d => VDict (map (fun kv => (fst kv, to_python_types (snd kv))) d)
  | VList l => VList (map to_python_types l)
  | _ => data
  end.

(** ** Exceptions *)

Inductive exn : Type :=
| KeyError (k : string)
| AttributeError (attr : string)
| TypeError (msg : string)
| UpstreamError (msg : string)
| ValueError (msg : string)
| OSError (msg : string).

Inductive result (A : Type) : Type :=
| Ok (a : A)
| Raise (e : exn).
Arguments Ok {A} a.
Arguments Raise {A} e.

Definition result_bind {A B} (r : result A) (k : A -> result B) : result B :=
  match r with
  | Ok a => k a
  | Raise e => Raise e
  end.

Notation "'let?' x ':=' e 'in' k" := (result_bind e (fun x => k))
  (at level 10, x name, e at level 100, k at level 200).

Fixpoint result_map {A B} (f : A -> result B) (l : list A) : result (list B) :=
  match l with
  | [] => Ok []
  | a :: l' =>
      let? b := f a in
      let? bs := result_map f l' in
      Ok (b :: bs)
  end.

(** ** Tables and series, typed *)

Record DataFrame : Type := mkDataFrame {
  df_index : list key;
  df_columns : list key;
  df_rows : list (list value)
}.

Record Series : Type := mkSeries {
  s_index : list key;
  s_values : list value
}.

Definition VTable (t : DataFrame) : value :=
  VDataFrame (df_index t) (df_columns t) (df_rows t).

(** Position of the first label equal to [k]. *)
Fixpoint label_pos (labels : list key) (k : key) : option nat :=
  match labels with
  | [] => None
  | l :: labels' =>
      if key_eqb l k then Some O else option_map S (label_pos labels' k)
  end.

Definition column_cells (rows : list (list value)) (j : nat) : list value :=
  map (fun row => nth j row VNone) rows.

(** All positions of the labels equal to [k], counted from [i]. *)
Fixpoint label_positions_from (i : nat) (labels : list key) (k : key) : list nat :=
  match labels with
  | [] => []
  | l :: labels' =>
      if key_eqb l k then i :: label_positions_from (S i) labels' k
      else label_positions_from (S i) labels' k
  end.

Definition label_positions (labels : list key) (k : key) : list nat :=
  label_positions_from O labels k.

(** The items of a list at the given positions. *)
Definition select {A} (positions : list nat) (l : list A) (default : A) : list A :=
  map (fun i => nth i l default) positions.

(** What [df[name]] gives: the column when the label occurs once, the table
    of the columns with that label when it is repeated. *)
Inductive selection : Type :=
| OneColumn (s : Series)
| SeveralColumns (positions : list nat) (t : DataFrame).

(** [df[name]] for a column label; [KeyError] when no column has it. *)
Definition df_getitem (t : DataFrame) (name : string) : result selection :=
  match label_positions (df_columns t) (KStr name) with
  | [] => Raise (KeyError name)
  | [j] => Ok (OneColumn (mkSeries (df_index t) (column_cells (df_rows t) j)))
  | js =>
      Ok (SeveralColumns js
            (mkDataFrame (df_index t) (select js (df_columns t) KNone)
                         (map (fun row => select js row VNone) (df_rows t))))
  end.

(** A boolean mask: one flag per row, or a table of flags, one per cell of
    the selected columns. *)
Inductive mask : Type :=
| RowMask (flags : list bool)
| TableMask (positions : list nat) (flags : list (list bool)).

(** What pandas does with a table of repeated column labels is not fixed
    here: [table.isin(values)] on the columns that share a label, and
    [df[mask]] for a table of flags (pandas' [df.where(mask)], which aligns
    the repeated labels of the mask with those of the table). *)
Record Pandas : Type := mkPandas {
  table_isin : DataFrame -> list key -> result (list (list bool));
  table_where : DataFrame -> list nat -> list (list bool) -> result DataFrame
}.

(** The key under which pandas hashes a cell; containers are unhashable. *)
Definition cell_key (v : value) : result key :=
  match v with
  | VNone => Ok KNone
  | VBool b => Ok (KBool b)
  | VInt z | VNpInt z => Ok (KInt z)
  | VFloat f | VNpFloat f => Ok (KFloat f)
  | VStr s => Ok (KStr s)
  | VOpaque tag => Ok (KOpaque tag)
  | VNA => Ok (KOpaque "<NA>")
  | VNaT => Ok (KOpaque "NaT")
  | _ => Raise (TypeError "unhashable type")
  end.

(** [s.isin(values)]: the boolean mask, row by row. *)
Definition series_isin (s : Series) (values : list key) : result (list bool) :=
  result_map (fun c => let? k := cell_key c in Ok (existsb (key_eqb k) values))
             (s_values s).

(** A cell is missing ([pd.isna]) when it is [None], a NaN, [pd.NA] or
    [pd.NaT]. *)
Definition is_missing (v : value) : bool :=
  match v with
  | VNone | VNA | VNaT => true
  | VFloat S754_nan | VNpFloat S754_nan => true
  | _ => false
  end.

(** [s.notna()]. *)
Definition series_notna (s : Series) : list bool :=
  map (fun c => negb (is_missing c)) (s_values s).

Fixpoint mask_select {A} (l : list A) (mask : list bool) : list A :=
  match l, mask with
  | a :: l', b :: mask' =>
      if b then a :: mask_select l' mask' else mask_select l' mask'
  | _, _ => []
  end.

(** [df[mask]] for a boolean mask over the rows. *)
Definition df_mask (t : DataFrame) (mask : list bool) : DataFrame :=
  mkDataFrame (mask_select (df_index t) mask) (df_columns t)
              (mask_select (df_rows t) mask).

(** [df[mask]]: the rows whose flag is set; for a table of flags, what
    pandas makes of it. *)
Definition df_select (pd : Pandas) (t : DataFrame) (m : mask) : result DataFrame :=
  match m with
  | RowMask flags => Ok (df_mask t flags)
  | TableMask positions flags => table_where pd t positions flags
  end.

(** [x.notna()] on what [df[name]] gave. *)
Definition selection_notna (sel : selection) : mask :=
  match sel with
  | OneColumn s => RowMask (series_notna s)
  | SeveralColumns positions t =>
      TableMask positions
                (map (map (fun c => negb (is_missing c))) (df_rows t))
  end.

(** [x.isin(values)] on what [df[name]] gave. *)
Definition selection_isin (pd : Pandas) (sel : selection) (values : list key)
  : result mask :=
  match sel with
  | OneColumn s => let? flags := series_isin s values in Ok (RowMask flags)
  | SeveralColumns positions t =>
      let? flags := table_isin pd t values in Ok (TableMask positions flags)
  end.

(** [df.head(n)]. *)
Definition df_head (n : nat) (t : DataFrame) : DataFrame :=
  mkDataFrame (firstn n (df_index t)) (df_columns t) (firstn n (df_rows t)).

(** [s.value_counts()]: missing values dropped, one entry per distinct value
    in order of first appearance, then sorted by decreasing count (ties keep
    their order). *)
Fixpoint tally_add (t : list (key * Z)) (k : key) : list (key * Z) :=
  match t with
  | [] => [(k, 1)]
  | (k', c) :: t' =>
      if key_eqb k' k then (k', c + 1) :: t' else (k', c) :: tally_add t' k
  end.

Definition tally (ks : list key) : list (key * Z) :=
  fold_left tally_add ks [].

Fixpoint insert_desc (kc : key * Z) (sorted : list (key * Z)) : list (key * Z) :=
  match sorted with
  | [] => [kc]
  | x :: sorted' =>
      if snd x <=? snd kc then kc :: x :: sorted'
      else x :: insert_desc kc sorted'
  end.

Definition sort_desc (l : list (key * Z)) : list (key * Z) :=
  fold_right insert_desc [] l.

Definition series_value_counts (s : Series) : result Series :=
  let present := List.filter (fun c => negb (is_missing c)) (s_values s) in
  let? ks := result_map cell_key present in
  let counts := sort_desc (tally ks) in
  Ok (mkSeries (map fst counts) (map (fun kc => VNpInt (snd kc)) counts)).

(** [x.value_counts()] on what [df[name]] gave: on a table with a repeated
    column label the grouping fails. *)
Definition selection_value_counts (sel : selection) : result Series :=
  match sel with
  | OneColumn s => series_value_counts s
  | SeveralColumns _ _ =>
      Raise (ValueError "Grouper for 'review_score' not 1-dimensional")
  end.

(** ** Attribute access on report values *)

(** [obj.get(name, default)]: defined on mappings, series and tables; on a
    series or table a repeated label selects all its entries. *)
Definition py_get (obj : value) (name : string) (default : value) : result value :=
  match obj with
  | VDict d =>
      Ok (match dict_get d (KStr name) with Some v => v | None => default end)
  | VSeries index vals =>
      Ok (match label_positions index (KStr name) with
          | [] => default
          | [i] => nth i vals default
          | positions => VSeries (select positions index KNone)
                                 (select positions vals VNone)
          end)
  | VDataFrame index columns rows =>
      Ok (match label_positions columns (KStr name) with
          | [] => default
          | [j] => VSeries index (column_cells rows j)
          | positions =>
              VDataFrame index (select positions columns KNone)
                         (map (fun row => select positions row VNone) rows)
          end)
  | _ => Raise (AttributeError "get")
  end.

(** [item.get(name, default)] on a mapping. *)
Definition dict_get_or (d : dict) (name : string) (default : value) : value :=
  match dict_get d (KStr name) with
  | Some v => v
  | None => default
  end.

(** [hasattr(obj, 'to_dict')]. *)
Definition hasattr_to_dict (obj : value) : bool :=
  match obj with
  | VDataFrame _ _ _ | VSeries _ _ => true
  | _ => false
  end.

(** [obj.to_dict('records')]: on a series the positional argument is the
    [into] parameter, and a string is not a mapping type. *)
Definition call_to_dict_records (obj : value) : result (list dict) :=
  match obj with
  | VDataFrame _ columns rows => Ok (df_to_dict_records columns rows)
  | VSeries _ _ => Raise (TypeError "unsupported type: <class 'str'>")
  | _ => Raise (AttributeError "to_dict")
  end.

(** [obj.head(n)]. *)
Definition call_head (n : nat) (obj : value) : result value :=
  match obj with
  | VDataFrame index columns rows =>
      Ok (VTable (df_head n (mkDataFrame index columns rows)))
  | VSeries index vals => Ok (VSeries (firstn n index) (firstn n vals))
  | _ => Raise (AttributeError "head")
  end.

(** [isinstance(obj, list)] and the slice [obj[:n]]. *)
Definition list_prefix (n : nat) (obj : value) : value :=
  match obj with
  | VList l => VList (firstn n l)
  | _ => VList []
  end.

(** ** Configuration (export_data.py, lines 14-19) *)

Record config : Type := mkConfig {
  ANALYSIS_YEAR : Z;
  COMPARISON_YEAR : option Z;
  ANALYSIS_MONTH : option Z;
  DATA_PATH : string;
  OUTPUT_DIR : string
}.

(** The truth value of [COMPARISON_YEAR] in [if COMPARISON_YEAR:]. *)
Definition truthy (y : option Z) : bool :=
  match y with
  | Some z => negb (z =? 0)
  | None => false
  end.

(** ** The external collaborators *)

(** [EcommerceDataLoader.create_sales_dataset(year_filter, month_filter,
    status_filter)]; an omitted [year_filter] is [None]. *)
Record EcommerceDataLoader : Type := mkLoader {
  create_sales_dataset : option Z -> option Z -> string -> result DataFrame
}.

(** [BusinessMetricsCalculator(df).generate_comprehensive_report(current_year,
    previous_year)]. *)
Record BusinessMetricsCalculator : Type := mkCalculator {
  generate_comprehensive_report : Z -> option Z -> result value
}.

(** What [json.dump] leaves in the file: the whole text, or the text written
    before the encoder raised. *)
Inductive dump_outcome : Type :=
| Dumped (text : string)
| DumpFailed (partial : string) (e : exn).

(** ** The export records (export_data.py, lines 81-172) *)

(** The combined dataset, lines 48-67. *)
Definition combined_dataset (pd : Pandas) (cfg : config)
  (loader : EcommerceDataLoader) : result DataFrame :=
  let? sales_data :=
    create_sales_dataset loader (Some (ANALYSIS_YEAR cfg)) (ANALYSIS_MONTH cfg)
                         "delivered" in
  let? comparison_data :=
    (if truthy (COMPARISON_YEAR cfg)
     then let? d := create_sales_dataset loader (COMPARISON_YEAR cfg)
                      (ANALYSIS_MONTH cfg) "delivered" in Ok (Some d)
     else Ok None) in
  let? combined_data :=
    (match comparison_data with
     | None => Ok sales_data
     | Some _ => create_sales_dataset loader None (ANALYSIS_MONTH cfg) "delivered"
     end) in
  match comparison_data with
  | Some _ =>
      let? years := df_getitem combined_data "purchase_year" in
      let? mask := selection_isin pd years
                     (KInt (ANALYSIS_YEAR cfg) ::
                      match COMPARISON_YEAR cfg with
                      | Some y => [KInt y]
                      | None => [KNone]
                      end) in
      df_select pd combined_data mask
  | None => Ok combined_data
  end.

(** KPI metrics, lines 82-89. *)
Definition kpi_metrics (report : value) : result value :=
  let? g1 := py_get report "revenue_metrics" (VDict []) in
  let? total_orders := py_get g1 "total_orders" (VInt 0) in
  let? g2 := py_get report "revenue_metrics" (VDict []) in
  let? total_revenue := py_get g2 "total_revenue" (VInt 0) in
  let? g3 := py_get report "revenue_metrics" (VDict []) in
  let? avg_order_value := py_get g3 "average_order_value" (VInt 0) in
  let? g4 := py_get report "revenue_metrics" (VDict []) in
  let? revenue_growth_pct := py_get g4 "revenue_growth_pct" (VInt 0) in
  let? g5 := py_get report "customer_metrics" (VDict []) in
  let? unique_customers := py_get g5 "unique_customers" (VInt 0) in
  let? g6 := py_get report "delivery_metrics" (VDict []) in
  let? fast_delivery_pct := py_get g6 "fast_delivery_percentage" (VInt 0) in
  Ok (VDict [(KStr "total_orders", total_orders);
             (KStr "total_revenue", total_revenue);
             (KStr "avg_order_value", avg_order_value);
             (KStr "revenue_growth_pct", revenue_growth_pct);
             (KStr "unique_customers", unique_customers);
             (KStr "fast_delivery_pct", fast_delivery_pct)]).

(** One mapped month, lines 101-106. *)
Definition monthly_item (cfg : config) (item : dict) : value :=
  VDict [(KStr "month", dict_get_or item "month" (VInt 0));
         (KStr "revenue", dict_get_or item "revenue" (VInt 0));
         (KStr "year", VInt (ANALYSIS_YEAR cfg));
         (KStr "orders", dict_get_or item "orders" (VInt 0))].

(** Monthly revenue, lines 95-109. *)
Definition monthly_data (cfg : config) (report : value) : result value :=
  let? monthly_trends := py_get report "monthly_trends" (VList []) in
  if hasattr_to_dict monthly_trends then
    let? records := call_to_dict_records monthly_trends in
    Ok (VList (map (monthly_item cfg) records))
  else Ok monthly_trends.

(** One mapped category, lines 122-127. *)
Definition category_item (cat : dict) : value :=
  VDict [(KStr "category", dict_get_or cat "product_category_name" (VStr ""));
         (KStr "revenue", dict_get_or cat "total_revenue" (VInt 0));
         (KStr "orders", dict_get_or cat "unique_orders" (VInt 0));
         (KStr "items_sold", dict_get_or cat "items_sold" (VInt 0))].

(** Category performance, lines 115-130. *)
Definition categories_data (report : value) : result value :=
  let? product_perf := py_get report "product_performance" (VDict []) in
  let? categories_df := py_get product_perf "top_categories" (VList []) in
  if hasattr_to_dict categories_df then
    let? top := call_head 15 categories_df in
    let? records := call_to_dict_records top in
    Ok (VList (map category_item records))
  else Ok (list_prefix 15 categories_df).

(** The review-score histogram, lines 139-140. *)
Definition score_counts (pd : Pandas) (combined_data : DataFrame) : result dict :=
  let? scores := df_getitem combined_data "review_score" in
  let? reviews_data := df_select pd combined_data (selection_notna scores) in
  let? present := df_getitem reviews_data "review_score" in
  let? counts := selection_value_counts present in
  Ok (series_to_dict (s_index counts) (s_values counts)).

(** Review statistics, lines 136-149. *)
Definition reviews_export (pd : Pandas) (combined_data : DataFrame)
  (report : value) : result value :=
  let? customer_satisfaction := py_get report "customer_satisfaction" (VDict []) in
  let? counts := score_counts pd combined_data in
  let? average_score := py_get customer_satisfaction "avg_review_score" (VInt 0) in
  let? total_reviews := py_get customer_satisfaction "total_reviews" (VInt 0) in
  let? score_5 := py_get customer_satisfaction "score_5_percentage" (VInt 0) in
  let? score_4_plus :=
    py_get customer_satisfaction "score_4_plus_percentage" (VInt 0) in
  Ok (VDict [(KStr "score_counts", VDict counts);
             (KStr "average_score", average_score);
             (KStr "total_reviews", total_reviews);
             (KStr "score_5_percentage", score_5);
             (KStr "score_4_plus_percentage", score_4_plus)]).

(** The four pass-through groups, lines 155-170. *)
Definition geo_data (report : value) : result value :=
  py_get report "geographic_performance" (VList []).
Definition delivery_stats (report : value) : result value :=
  py_get report "delivery_performance" (VDict []).
Definition payment_analysis (report : value) : result value :=
  py_get report "payment_analysis" (VDict []).
Definition customer_segments (report : value) : result value :=
  py_get report "customer_segments" (VDict []).

(** ** The orchestrator (export_data.py, lines 40-179)

    The state of a run is the regular files that exist, a finite map from
    path to content.  Directories are not recorded; what the operating system
    does beyond that state (permissions, a full disk, a path that is a
    directory) is an [OS], which can refuse every operation.  The progress
    lines of lines 42 and 76 are taken to succeed and are left out. *)

Abbreviation files := (gmap string string).

(** For each operation, the error it raises in a given state, if it fails:
    [Path(dir).mkdir(parents=True, exist_ok=True)], [open(path, 'w')], the
    writes of a text to the open file (with the part that got written), and
    the closing report of lines 174-179, which lists the directory and reads
    the size of each file. *)
Record OS : Type := mkOS {
  os_mkdir : string -> files -> option exn;
  os_open : string -> files -> option exn;
  os_write : string -> string -> files -> option (string * exn);
  os_listing : string -> files -> option exn
}.

(** A directory cannot be made at a path that is a regular file, or below
    one: [prefix] is the part of the path read so far. *)
Fixpoint path_blocked (fs : files) (prefix rest : string) : bool :=
  match rest with
  | EmptyString => bool_decide (is_Some (fs !! prefix))
  | String c rest' =>
      (Ascii.eqb c "/"%char && bool_decide (is_Some (fs !! prefix)))
      || path_blocked fs (prefix ++ String c EmptyString)%string rest'
  end.

(** A file cannot be opened at a path that is a directory, that is, a path
    below which files exist. *)
Definition has_descendant (fs : files) (path : string) : bool :=
  negb (forallb (fun k => negb (String.prefix (path ++ "/")%string k))
                (map fst (map_to_list fs))).

Definition mkdir_error (os : OS) (dir : string) (fs : files) : option exn :=
  if path_blocked fs EmptyString dir then Some (OSError "FileExistsError")
  else os_mkdir os dir fs.

Definition open_error (os : OS) (path : string) (fs : files) : option exn :=
  if has_descendant fs path then Some (OSError "IsADirectoryError")
  else os_open os path fs.

Definition io (A : Type) : Type := files -> files * result A.

Definition io_bind {A B} (m : io A) (k : A -> io B) : io B :=
  fun fs =>
    match m fs with
    | (fs', Ok a) => k a fs'
    | (fs', Raise e) => (fs', Raise e)
    end.

Definition io_lift {A} (r : result A) : io A := fun fs => (fs, r).

(** An operation that changes no file and may fail. *)
Definition io_check (error : files -> option exn) : io unit :=
  fun fs =>
    match error fs with
    | Some e => (fs, Raise e)
    | None => (fs, Ok tt)
    end.

Notation "'let!' x ':=' e 'in' k" := (io_bind e (fun x => k))
  (at level 10, x name, e at level 100, k at level 200).

Section Orchestrator.

(** [load_and_process_data(path)] returns the loader and the processed data. *)
Variable load_and_process_data : string -> result (EcommerceDataLoader * value).
(** The constructor [BusinessMetricsCalculator(df)]. *)
Variable new_BusinessMetricsCalculator : DataFrame -> result BusinessMetricsCalculator.
(** [json.dump(obj, f, ensure_ascii=False, indent=2)]. *)
Variable json_dump : value -> dump_outcome.
(** The operating system under the run. *)
Variable os : OS.
(** pandas, for tables with repeated column labels. *)
Variable pd : Pandas.

(** [with open(path, 'w') as f: json.dump(to_python_types(data), f, ...)]:
    the file is opened, which empties it, and receives the text that the
    encoder produces, as far as the writes succeed. *)
Definition write_json (path : string) (data : value) : io unit :=
  fun fs =>
    match open_error os path fs with
    | Some e => (fs, Raise e)
    | None =>
        match json_dump (to_python_types data) with
        | Dumped text =>
            match os_write os path text fs with
            | Some (partial, e) => (<[path := partial]> fs, Raise e)
            | None => (<[path := text]> fs, Ok tt)
            end
        | DumpFailed partial e =>
            match os_write os path partial fs with
            | Some (partial', e') => (<[path := partial']> fs, Raise e')
            | None => (<[path := partial]> fs, Raise e)
            end
        end
    end.

Definition out_path (cfg : config) (name : string) : string :=
  (OUTPUT_DIR cfg ++ "/" ++ name)%string.

Definition export_data (cfg : config) : io unit :=
  let! loaded := io_lift (load_and_process_data (DATA_PATH cfg)) in
  let loader := fst loaded in
  let! combined_data := io_lift (combined_dataset pd cfg loader) in
  let! calc := io_lift (new_BusinessMetricsCalculator combined_data) in
  let! report :=
    io_lift (generate_comprehensive_report calc (ANALYSIS_YEAR cfg)
                                           (COMPARISON_YEAR cfg)) in
  let! _ := io_check (mkdir_error os (OUTPUT_DIR cfg)) in
  let! kpi := io_lift (kpi_metrics report) in
  let! _ := write_json (out_path cfg "kpi_metrics.json") kpi in
  let! monthly := io_lift (monthly_data cfg report) in
  let! _ := write_json (out_path cfg "revenue.json") monthly in
  let! categories := io_lift (categories_data report) in
  let! _ := write_json (out_path cfg "categories.json") categories in
  let! reviews := io_lift (reviews_export pd combined_data report) in
  let! _ := write_json (out_path cfg "reviews.json") reviews in
  let! geo := io_lift (geo_data report) in
  let! _ := write_json (out_path cfg "geo.json") geo in
  let! delivery := io_lift (delivery_stats report) in
  let! _ := write_json (out_path cfg "delivery.json") delivery in
  let! payments := io_lift (payment_analysis report) in
  let! _ := write_json (out_path cfg "payments.json") payments in
  let! customers := io_lift (customer_segments report) in
  let! _ := write_json (out_path cfg "customers.json") customers in
  io_check (os_listing os (OUTPUT_DIR cfg)).

End Orchestrator.

(** The eight output files, in the order they are written. *)
Definition output_files : list string :=
  ["kpi_metrics.json"; "revenue.json"; "categories.json"; "reviews.json";
   "geo.json"; "delivery.json"; "payments.json"; "customers.json"].

(** * Vocabulary of the specification *)

(** The cell of a row under a column label. *)
Definition row_cell (columns : list key) (row : list value) (name : string)
  : option value :=
  match label_pos columns (KStr name) with
  | Some j => nth_error row j
  | None => None
  end.

(** Numbers, native or numpy; and the native ones. *)
Definition is_number (v : value) : bool :=
  match v with
  | VInt _ | VFloat _ | VNpInt _ | VNpFloat _ => true
  | _ => false
  end.

Definition is_native_number (v : value) : bool :=
  match v with
  | VInt _ | VFloat _ => true
  | _ => false
  end.

(** 2.5 as a binary64 float. *)
Definition float_2_5 : spec_float := S754_finite false 5629499534213120 (-51).

(** What the exports copy from a table row: the boxed cell of the column, or
    the default when the table has no such column. *)
Definition cell_or (columns : list key) (row : list value) (name : string)
  (default : value) : value :=
  match row_cell columns row name with
  | Some c => box_native c
  | None => default
  end.

(** A month as revenue.json holds it. *)
Definition month_entry (cfg : config) (columns : list key) (row : list value)
  : value :=
  VDict [(KStr "month", to_python_types (cell_or columns row "month" (VInt 0)));
         (KStr "revenue", to_python_types (cell_or columns row "revenue" (VInt 0)));
         (KStr "year", VInt (ANALYSIS_YEAR cfg));
         (KStr "orders", to_python_types (cell_or columns row "orders" (VInt 0)))].

(** A category as categories.json holds it, renamed. *)
Definition category_entry (columns : list key) (row : list value) : value :=
  VDict [(KStr "category",
          to_python_types (cell_or columns row "product_category_name" (VStr "")));
         (KStr "revenue",
          to_python_types (cell_or columns row "total_revenue" (VInt 0)));
         (KStr "orders",
          to_python_types (cell_or columns row "unique_orders" (VInt 0)));
         (KStr "items_sold",
          to_python_types (cell_or columns row "items_sold" (VInt 0)))].

(** The renaming applied to an entry that is already a mapping. *)
Definition renamed_entry (entry : value) : value :=
  match entry with
  | VDict d =>
      VDict [(KStr "category",
              to_python_types (dict_get_or d "product_category_name" (VStr "")));
             (KStr "revenue", to_python_types (dict_get_or d "total_revenue" (VInt 0)));
             (KStr "orders", to_python_types (dict_get_or d "unique_orders" (VInt 0)));
             (KStr "items_sold", to_python_types (dict_get_or d "items_sold" (VInt 0)))]
  | _ => entry
  end.

(** A report group is usable when it is absent or a mapping. *)
Definition group_ok (r : dict) (group : string) : bool :=
  match dict_get r (KStr group) with
  | Some (VDict _) | None => true
  | Some _ => false
  end.

(** A field of a report group, 0 when the group or the field is absent. *)
Definition report_field (r : dict) (group field : string) : value :=
  match dict_get r (KStr group) with
  | Some (VDict g) => dict_get_or g field (VInt 0)
  | _ => VInt 0
  end.

(** The KPI record of a report. *)
Definition kpi_record (r : dict) : dict :=
  [(KStr "total_orders", report_field r "revenue_metrics" "total_orders");
   (KStr "total_revenue", report_field r "revenue_metrics" "total_revenue");
   (KStr "avg_order_value", report_field r "revenue_metrics" "average_order_value");
   (KStr "revenue_growth_pct", report_field r "revenue_metrics" "revenue_growth_pct");
   (KStr "unique_customers", report_field r "customer_metrics" "unique_customers");
   (KStr "fast_delivery_pct",
    report_field r "delivery_metrics" "fast_delivery_percentage")].

(** The report and the configuration of the monthly example. *)
Definition monthly_example_report : value :=
  VDict [(KStr "monthly_trends",
          VDataFrame [KInt 0] [KStr "month"; KStr "revenue"; KStr "orders"]
                     [[VNpInt 1; VNpInt 100; VNpInt 5]])].

Definition config_2023 : config :=
  mkConfig 2023 (Some 2022) None "ecommerce_data/" "EDA_Refactored/data".

(** Twenty categories given as a plain list of mappings, and as a table. *)
Definition category_mapping (i : Z) : value :=
  VDict [(KStr "product_category_name", VStr "toys");
         (KStr "total_revenue", VInt i);
         (KStr "unique_orders", VInt 2);
         (KStr "items_sold", VInt 3)].

Definition twenty_categories : list value :=
  map category_mapping
      [1; 2; 3; 4; 5; 6; 7; 8; 9; 10; 11; 12; 13; 14; 15; 16; 17; 18; 19; 20].

Definition category_columns : list key :=
  [KStr "product_category_name"; KStr "total_revenue"; KStr "unique_orders";
   KStr "items_sold"].

Definition twenty_category_rows : list (list value) :=
  map (fun i => [VStr "toys"; VNpInt i; VNpInt 2; VNpInt 3])
      [1; 2; 3; 4; 5; 6; 7; 8; 9; 10; 11; 12; 13; 14; 15; 16; 17; 18; 19; 20].

Definition categories_report (top_categories : value) : value :=
  VDict [(KStr "product_performance",
          VDict [(KStr "top_categories", top_categories)])].

(** The histogram of a score column in the words of the specification: the
    number of rows whose score is present and equal to [k]. *)
Definition score_matches (k : key) (cell : value) : bool :=
  negb (is_missing cell) &&
  match cell_key cell with
  | Ok k' => key_eqb k' k
  | Raise _ => false
  end.

Definition score_histogram (scores : list value) (k : key) : Z :=
  Z.of_nat (length (List.filter (score_matches k) scores)).

(** The count stored under a key in a tally. *)
Fixpoint tally_get (t : list (key * Z)) (k : key) : option Z :=
  match t with
  | [] => None
  | (k', c) :: t' => if key_eqb k' k then Some c else tally_get t' k
  end.

(** How many keys of [ks] equal [k]. *)
Definition occurrences (ks : list key) (k : key) : Z :=
  Z.of_nat (length (List.filter (fun x => key_eqb x k) ks)).

(** A count added to a stored count. *)
Definition bump (o : option Z) (n : Z) : option Z :=
  if n =? 0 then o
  else Some (match o with Some c => c + n | None => n end).

(** A tally as the mapping that [to_dict] makes of it. *)
Definition tally_dict (t : list (key * Z)) : dict :=
  map (fun kc => (fst kc, VInt (snd kc))) t.

(** The combined dataset of the histogram example: review scores 5, 5, 4, 3
    and a missing one. *)
Definition five_reviews : DataFrame :=
  mkDataFrame [KInt 0; KInt 1; KInt 2; KInt 3; KInt 4]
              [KStr "order_id"; KStr "review_score"]
              [[VStr "a"; VInt 5]; [VStr "b"; VInt 5]; [VStr "c"; VInt 4];
               [VStr "d"; VInt 3]; [VStr "e"; VNone]].

(** A cell that pandas can hash. *)
Definition hashable (v : value) : bool :=
  match cell_key v with
  | Ok _ => true
  | Raise _ => false
  end.

(** The purchase year in a cell is one of [years]. *)
Definition in_years (years : list Z) (cell : value) : bool :=
  match cell_key cell with
  | Ok k => existsb (fun y => key_eqb k (KInt y)) years
  | Raise _ => false
  end.

(** A loader over one fixed table of orders, which applies the year filter. *)
Definition orders_2021_2023 : list (list value) :=
  [[VStr "a"; VNpInt 2023]; [VStr "b"; VNpInt 2022]; [VStr "c"; VNpInt 2021];
   [VStr "d"; VNpInt 2023]].

Definition example_loader : EcommerceDataLoader :=
  mkLoader (fun year _ _ =>
    let rows := match year with
                | Some y => List.filter (fun row => in_years [y] (nth 1 row VNone))
                                        orders_2021_2023
                | None => orders_2021_2023
                end in
    Ok (mkDataFrame (map (fun _ => KNone) rows)
                    [KStr "order_id"; KStr "purchase_year"] rows)).

(** Writes as data: the files written, in order, with their contents. *)
Definition apply_writes (ws : list (string * string)) (fs : files) : files :=
  fold_left (fun fs w => <[fst w := snd w]> fs) ws fs.

(** The content that a sequence of writes leaves in a file, if it writes it. *)
Fixpoint written (ws : list (string * string)) (path : string) : option string :=
  match ws with
  | [] => None
  | (p, text) :: ws' =>
      match written ws' path with
      | Some text' => Some text'
      | None => if String.eqb p path then Some text else None
      end
  end.

(** The eight export records of a run, by file name. *)
Definition export_records (pd : Pandas) (cfg : config) (combined_data : DataFrame)
  (report : value) : list (string * result value) :=
  [("kpi_metrics.json", kpi_metrics report);
   ("revenue.json", monthly_data cfg report);
   ("categories.json", categories_data report);
   ("reviews.json", reviews_export pd combined_data report);
   ("geo.json", geo_data report);
   ("delivery.json", delivery_stats report);
   ("payments.json", payment_analysis report);
   ("customers.json", customer_segments report)].

(** Collaborators for a small run: the example loader, a calculator with an
    empty report, and an encoder that writes a fixed text. *)
Definition empty_calculator (_ : DataFrame) : result BusinessMetricsCalculator :=
  Ok (mkCalculator (fun _ _ => Ok (VDict []))).

Definition example_load (_ : string) : result (EcommerceDataLoader * value) :=
  Ok (mkLoader (fun _ _ _ =>
        Ok (mkDataFrame [KInt 0] [KStr "purchase_year"; KStr "review_score"]
                        [[VNpInt 2023; VNpInt 5]])), VNone).

(** A second load step, which returns the same loader next to other
    processed data. *)
Definition renamed_load (_ : string) : result (EcommerceDataLoader * value) :=
  Ok (mkLoader (fun _ _ _ =>
        Ok (mkDataFrame [KInt 0] [KStr "purchase_year"; KStr "review_score"]
                        [[VNpInt 2023; VNpInt 5]])), VStr "processed").

Definition constant_dump (_ : value) : dump_outcome := Dumped "{}".

(** Values built only from strings, numbers, booleans, null, ordered
    sequences and mappings whose keys satisfy [keyok]. *)
Fixpoint json_like (keyok : key -> bool) (v : value) : bool :=
  match v with
  | VNone | VBool _ | VInt _ | VFloat _ | VStr _ => true
  | VList l => forallb (json_like keyok) l
  | VDict d => forallb (fun kv => keyok (fst kv) && json_like keyok (snd kv)) d
  | _ => false
  end.

Definition is_str_key (k : key) : bool :=
  match k with
  | KStr _ => true
  | _ => false
  end.

(** JSON-serializable in the sense of the specification: all keys strings. *)
Definition json_serializable (v : value) : bool := json_like is_str_key v.

(** Native or numpy scalars. *)
Definition is_scalar (v : value) : bool :=
  match v with
  | VNone | VBool _ | VInt _ | VFloat _ | VStr _ | VNpInt _ | VNpFloat _ => true
  | _ => false
  end.

(** A cell of a table or series that comes out serializable: a scalar, or a
    value that is serializable already. *)
Definition cell_ok (v : value) : bool := is_scalar v || json_serializable v.

(** An array has as many items as its shape says. *)
Definition array_ok {A} (shape : list nat) (items : list A) : bool :=
  Nat.eqb (length items) (shape_size shape).

(** The report values that the normalizer turns into serializable ones:
    scalars, typed arrays, object arrays whose items are serializable as
    they are, lists, mappings with string keys, and tables and series with
    string labels and cells that are [cell_ok]. *)
Fixpoint normalizable (v : value) : bool :=
  match v with
  | VNone | VBool _ | VInt _ | VFloat _ | VStr _ | VNpInt _ | VNpFloat _ => true
  | VList l => forallb normalizable l
  | VDict d => forallb (fun kv => is_str_key (fst kv) && normalizable (snd kv)) d
  | VNdArray _ _ => true
  | VObjArray _ items => forallb json_serializable items
  | VDataFrame _ columns rows =>
      forallb is_str_key columns && forallb (forallb cell_ok) rows
  | VSeries index vals => forallb is_str_key index && forallb cell_ok vals
  | VOpaque _ | VNA | VNaT => false
  end.



(** Both parts of a mapping entry satisfy a test. *)
Definition entry_ok (pk : key -> bool) (pv : value -> bool) (kv : key * value)
  : bool :=
  pk (fst kv) && pv (snd kv).

(** A report with a customer-satisfaction group, for the reviews record. *)
Definition satisfaction_report : value :=
  VDict [(KStr "customer_satisfaction",
          VDict [(KStr "avg_review_score", VNpFloat float_2_5);
                 (KStr "total_reviews", VNpInt 4)])].

(** A report whose monthly_trends is a plain list, and its calculator. *)
Definition plain_monthly_report : value :=
  VDict [(KStr "monthly_trends",
          VList [VDict [(KStr "month", VNpInt 1); (KStr "sales", VInt 9)]])].

Definition plain_monthly_calculator (_ : DataFrame)
  : result BusinessMetricsCalculator :=
  Ok (mkCalculator (fun _ _ => Ok plain_monthly_report)).

(** Values on which [obj.get] exists. *)
Definition has_get (obj : value) : bool :=
  match obj with
  | VDict _ | VSeries _ _ | VDataFrame _ _ _ => true
  | _ => false
  end.

(** The sum of the integer values of a mapping. *)
Fixpoint int_total (d : dict) : Z :=
  match d with
  | [] => 0
  | (_, VInt c) :: d' => c + int_total d'
  | _ :: d' => int_total d'
  end.

(** The integer values of a mapping never increase along its entries. *)
Fixpoint counts_descending (d : dict) : bool :=
  match d with
  | (_, VInt c) :: (((_, VInt c') :: _) as d') => (c' <=? c) && counts_descending d'
  | _ :: d' => counts_descending d'
  | [] => true
  end.

(** The steps before any file is written, lines 45-74: the combined dataset
    and the report. *)
Definition upstream
  (load_and_process_data : string -> result (EcommerceDataLoader * value))
  (new_BusinessMetricsCalculator : DataFrame -> result BusinessMetricsCalculator)
  (pd : Pandas) (cfg : config) : result (DataFrame * value) :=
  let? loaded := load_and_process_data (DATA_PATH cfg) in
  let? combined_data := combined_dataset pd cfg (fst loaded) in
  let? calc := new_BusinessMetricsCalculator combined_data in
  let? report := generate_comprehensive_report calc (ANALYSIS_YEAR cfg)
                                             (COMPARISON_YEAR cfg) in
  Ok (combined_data, report).

(** Lines 81-172 as a loop: each record is produced, then written, and the
    first failure ends the run. *)
Fixpoint write_records (json_dump : value -> dump_outcome) (os : OS)
  (cfg : config) (records : list (string * result value)) : io unit :=
  match records with
  | [] => fun fs => (fs, Ok tt)
  | (name, res) :: records' =>
      let! data := io_lift res in
      let! _ := write_json json_dump os (out_path cfg name) data in
      write_records json_dump os cfg records'
  end.

(** The operating system lets a sequence of files be opened and written in
    full, one after the other, from a given state. *)
Fixpoint os_allows (os : OS) (ws : list (string * string)) (fs : files) : Prop :=
  match ws with
  | [] => True
  | (path, text) :: ws' =>
      open_error os path fs = None /\
      os_write os path text fs = None /\
      os_allows os ws' (<[path := text]> fs)
  end.

(** An operating system that refuses nothing, one that cannot open a given
    path, and one whose disk is full. *)
Definition reliable_os : OS :=
  mkOS (fun _ _ => None) (fun _ _ => None) (fun _ _ _ => None) (fun _ _ => None).

Definition refusing_os (path : string) : OS :=
  mkOS (fun _ _ => None)
       (fun p _ => if String.eqb p path then Some (OSError "PermissionError") else None)
       (fun _ _ _ => None) (fun _ _ => None).

Definition full_disk_os : OS :=
  mkOS (fun _ _ => None) (fun _ _ => None)
       (fun _ _ _ => Some (EmptyString, OSError "No space left on device"))
       (fun _ _ => None).

(** A record that was produced and encoded to [text]. *)
Definition encoded (json_dump : value -> dump_outcome)
  (record : string * result value) (text : string) : Prop :=
  exists data, snd record = Ok data /\ json_dump (to_python_types data) = Dumped text.

(** A loader that answers every request with the same table, and one that
    fails for a given year. *)
Definition constant_loader (t : DataFrame) : EcommerceDataLoader :=
  mkLoader (fun _ _ _ => Ok t).

Definition failing_for_year (y : Z) (t : DataFrame) : EcommerceDataLoader :=
  mkLoader (fun year _ _ =>
    match year with
    | Some y' => if y' =? y then Raise (UpstreamError "no data") else Ok t
    | None => Ok t
    end).

(** An encoder that accepts string keys only. *)
Definition strict_dump (v : value) : dump_outcome :=
  if json_serializable v then Dumped "ok"
  else DumpFailed "{" (TypeError "keys must be str").

(** A load step that fails, and a calculator whose monthly_trends is a
    series. *)
Definition failing_load (_ : string) : result (EcommerceDataLoader * value) :=
  Raise (UpstreamError "no such directory").

Definition series_monthly_report : value :=
  VDict [(KStr "monthly_trends", VSeries [KInt 1] [VNpInt 100])].

Definition series_monthly_calculator (_ : DataFrame)
  : result BusinessMetricsCalculator :=
  Ok (mkCalculator (fun _ _ => Ok series_monthly_report)).

(** The combined dataset of the small run. *)
Definition one_order : DataFrame :=
  mkDataFrame [KInt 0] [KStr "purchase_year"; KStr "review_score"]
              [[VNpInt 2023; VNpInt 5]].

(** A loader that returns one table for a given year and another one
    otherwise. *)
Definition special_year_loader (y : Z) (d t : DataFrame) : EcommerceDataLoader :=
  mkLoader (fun year _ _ =>
    match year with
    | Some y' => if y' =? y then Ok d else Ok t
    | None => Ok t
    end).

(** A pandas for tables without repeated column labels, as in the examples. *)
Definition example_pandas : Pandas :=
  mkPandas (fun _ _ => Raise (ValueError "repeated column labels"))
           (fun _ _ _ => Raise (ValueError "repeated column labels")).






(** * Properties *)

(** ** Induction over nested values *)

Section ValueInd.
Variable P : value -> Prop.
Hypothesis HNone : P VNone.
Hypothesis HBool : forall b, P (VBool b).
Hypothesis HInt : forall z, P (VInt z).
Hypothesis HFloat : forall f, P (VFloat f).
Hypothesis HStr : forall s, P (VStr s).
Hypothesis HList : forall l, Forall P l -> P (VList l).
Hypothesis HDict : forall d, Forall (fun kv => P (snd kv)) d -> P (VDict d).
Hypothesis HNpInt : forall z, P (VNpInt z).
Hypothesis HNpFloat : forall f, P (VNpFloat f).
Hypothesis HNdArray : forall shape data, P (VNdArray shape data).
Hypothesis HObjArray : forall shape items, Forall P items -> P (VObjArray shape items).
Hypothesis HNA : P VNA.
Hypothesis HNaT : P VNaT.
Hypothesis HDataFrame : forall i c rows, Forall (Forall P) rows -> P (VDataFrame i c rows).
Hypothesis HSeries : forall i vals, Forall P vals -> P (VSeries i vals).
Hypothesis HOpaque : forall t, P (VOpaque t).

Fixpoint value_ind (v : value) : P v :=
  let fix all (l : list value) : Forall P l :=
    match l with
    | [] => @List.Forall_nil _ _
    | x :: l' => @List.Forall_cons _ _ x l' (value_ind x) (all l')
    end in
  match v with
  | VNone => HNone
  | VBool b => HBool b
  | VInt z => HInt z
  | VFloat f => HFloat f
  | VStr s => HStr s
  | VList l => HList l (all l)
  | VDict d =>
      HDict d ((fix alld (d : list (key * value)) : Forall (fun kv => P (snd kv)) d :=
                  match d with
                  | [] => @List.Forall_nil _ _
                  | kv :: d' => @List.Forall_cons _ _ kv d' (value_ind (snd kv)) (alld d')
                  end) d)
  | VNpInt z => HNpInt z
  | VNpFloat f => HNpFloat f
  | VNdArray shape data => HNdArray shape data
  | VObjArray shape items => HObjArray shape items (all items)
  | VNA => HNA
  | VNaT => HNaT
  | VDataFrame i c rows =>
      HDataFrame i c rows
        ((fix allr (rows : list (list value)) : Forall (Forall P) rows :=
            match rows with
            | [] => @List.Forall_nil _ _
            | r :: rows' => @List.Forall_cons _ _ r rows' (all r) (allr rows')
            end) rows)
  | VSeries i vals => HSeries i vals (all vals)
  | VOpaque t => HOpaque t
  end.
End ValueInd.

(** ** Key equality *)

Lemma num_eqb_sym a b : num_eqb a b = num_eqb b a.
Proof.
  destruct a as [p|s|], b as [q|t|]; simpl; try reflexivity.
  - apply eq_true_iff_eq. rewrite !Qeq_bool_iff. split; intros H; now symmetry.
  - destruct s, t; reflexivity.
Qed.

Lemma num_eqb_trans a b c :
  num_eqb a b = true -> num_eqb b c = true -> num_eqb a c = true.
Proof.
  destruct a as [p|s|], b as [q|t|], c as [r|u|]; simpl; try discriminate.
  - rewrite !Qeq_bool_iff. intros H1 H2. now rewrite H1.
  - destruct s, t, u; simpl; congruence.
Qed.

Lemma key_eqb_sym a b : key_eqb a b = key_eqb b a.
Proof.
  destruct a, b; cbn [key_eqb key_num]; try reflexivity;
    try apply num_eqb_sym; apply String.eqb_sym.
Qed.

Lemma key_eqb_trans a b c :
  key_eqb a b = true -> key_eqb b c = true -> key_eqb a c = true.
Proof.
  destruct a, b; cbn [key_eqb key_num]; try discriminate;
    destruct c; cbn [key_eqb key_num];
    first [ discriminate
          | apply num_eqb_trans
          | rewrite !String.eqb_eq; congruence
          | auto ].
Qed.

(** Equal keys look the same from any third key. *)
Lemma key_eqb_congr a b c :
  key_eqb a b = true -> key_eqb a c = key_eqb b c.
Proof.
  intros Hab. destruct (key_eqb b c) eqn:Hbc.
  - eapply key_eqb_trans; eauto.
  - destruct (key_eqb a c) eqn:Hac; [|reflexivity].
    rewrite <- Hbc. symmetry. eapply key_eqb_trans; [|exact Hac].
    now rewrite key_eqb_sym.
Qed.

(** ** Mappings *)

Lemma dict_get_set d k v k' :
  dict_get (dict_set d k v) k' =
  if key_eqb k k' then Some v else dict_get d k'.
Proof.
  induction d as [|[k0 v0] d IH]; simpl; [reflexivity|].
  destruct (key_eqb k0 k) eqn:E; simpl.
  - rewrite (key_eqb_congr k0 k k' E). now destruct (key_eqb k k').
  - rewrite IH. destruct (key_eqb k0 k') eqn:E0; [|reflexivity].
    destruct (key_eqb k k') eqn:E1; [|reflexivity].
    rewrite key_eqb_sym in E1.
    rewrite (key_eqb_trans k0 k' k E0 E1) in E. discriminate.
Qed.

Lemma dict_set_fresh d k v :
  existsb (fun k' => key_eqb k' k) (map fst d) = false ->
  dict_set d k v = d ++ [(k, v)].
Proof.
  induction d as [|[k0 v0] d IH]; simpl; [reflexivity|].
  intros H. apply orb_false_elim in H as [H0 H].
  rewrite H0. now rewrite IH.
Qed.

Lemma keys_distinct_app_fresh ks k rest :
  keys_distinct (ks ++ k :: rest) = true ->
  existsb (fun k' => key_eqb k' k) ks = false.
Proof.
  induction ks as [|k0 ks IH]; simpl; [reflexivity|].
  intros H. apply andb_prop in H as [H0 H].
  rewrite (IH H), orb_false_r.
  apply negb_true_iff in H0. rewrite existsb_app in H0.
  apply orb_false_elim in H0 as [_ H0]. simpl in H0.
  now apply orb_false_elim in H0 as [H0 _].
Qed.

Lemma dict_of_pairs_from acc l :
  keys_distinct (map fst (acc ++ l)) = true ->
  fold_left (fun d kv => dict_set d (fst kv) (snd kv)) l acc = acc ++ l.
Proof.
  revert acc. induction l as [|[k v] l IH]; intros acc H; simpl.
  - now rewrite app_nil_r.
  - rewrite dict_set_fresh.
    + rewrite IH; rewrite <- app_assoc; [reflexivity | exact H].
    + rewrite map_app in H. simpl in H.
      exact (keys_distinct_app_fresh _ _ _ H).
Qed.

(** With distinct keys, [dict(pairs)] keeps the pairs as they are. *)
Lemma dict_of_pairs_distinct l :
  keys_distinct (map fst l) = true -> dict_of_pairs l = l.
Proof. intros H. unfold dict_of_pairs. now rewrite dict_of_pairs_from. Qed.

Lemma In_firstn {A} n (l : list A) x : In x (firstn n l) -> In x l.
Proof.
  revert n. induction l as [|a l IH]; intros [|n]; simpl; try tauto.
  intros [H|H]; [now left | right; eauto].
Qed.

Lemma keys_distinct_firstn n ks :
  keys_distinct ks = true -> keys_distinct (firstn n ks) = true.
Proof.
  revert n. induction ks as [|k ks IH]; intros [|n]; simpl; auto.
  intros H. apply andb_prop in H as [H0 H]. rewrite (IH n H), andb_true_r.
  apply negb_true_iff in H0. apply negb_true_iff.
  destruct (existsb (key_eqb k) (firstn n ks)) eqn:E; [|reflexivity].
  apply existsb_exists in E as [x [Hin Hx]].
  rewrite <- H0. symmetry. apply existsb_exists. exists x. split; [|exact Hx].
  eapply In_firstn; eauto.
Qed.

Lemma map_fst_combine_firstn {A B} (ks : list A) (vs : list B) :
  map fst (combine ks vs) = firstn (length vs) ks.
Proof.
  revert vs. induction ks as [|k ks IH]; intros [|v vs]; simpl; auto.
  now rewrite IH.
Qed.

Lemma dict_get_combine ks (vs : list value) k :
  dict_get (combine ks vs) k =
  match label_pos ks k with
  | Some j => nth_error vs j
  | None => None
  end.
Proof.
  revert vs. induction ks as [|k0 ks IH]; intros vs; simpl; [reflexivity|].
  destruct vs as [|v vs]; simpl.
  - destruct (key_eqb k0 k); [reflexivity|].
    destruct (label_pos ks k); reflexivity.
  - destruct (key_eqb k0 k); [reflexivity|].
    rewrite IH. destruct (label_pos ks k); reflexivity.
Qed.

Lemma row_to_dict_distinct columns row :
  keys_distinct columns = true ->
  row_to_dict columns row = combine columns (map box_native row).
Proof.
  intros H. unfold row_to_dict. apply dict_of_pairs_distinct.
  rewrite map_fst_combine_firstn. now apply keys_distinct_firstn.
Qed.

(** A row mapping sends a column label to the boxed cell of that column. *)
Lemma row_to_dict_get columns row name :
  keys_distinct columns = true ->
  dict_get (row_to_dict columns row) (KStr name) =
  option_map box_native (row_cell columns row name).
Proof.
  intros H. rewrite row_to_dict_distinct by exact H.
  rewrite dict_get_combine. unfold row_cell.
  destruct (label_pos columns (KStr name)); [|reflexivity].
  now rewrite nth_error_map.
Qed.

Lemma dict_get_map_values (f : value -> value) d k :
  dict_get (map (fun kv => (fst kv, f (snd kv))) d) k =
  option_map f (dict_get d k).
Proof.
  induction d as [|[k0 v0] d IH]; simpl; [reflexivity|].
  now destruct (key_eqb k0 k).
Qed.

(** ** The type normalizer *)

Lemma dict_keys_map_values (f : value -> value) d :
  dict_keys (map (fun kv => (fst kv, f (snd kv))) d) = dict_keys d.
Proof. unfold dict_keys. rewrite map_map. reflexivity. Qed.

(** C10: on a mapping the normalizer keeps the keys as they are, whatever
    their type, and in their order, and normalizes each value; on a list it
    keeps the length and the order and normalizes each element.  A mapping
    with the keys 7 and b keeps both keys. *)
Theorem to_python_types_mapping_and_list :
  (forall d, exists d',
      to_python_types (VDict d) = VDict d' /\
      dict_keys d' = dict_keys d /\
      map snd d' = map to_python_types (map snd d) /\
      forall k, dict_get d' k = option_map to_python_types (dict_get d k)) /\
  (forall l, exists l',
      to_python_types (VList l) = VList l' /\
      length l' = length l /\
      forall i, nth_error l' i = option_map to_python_types (nth_error l i)) /\
  to_python_types (VDict [(KInt 7, VNpInt 1); (KStr "b", VList [VNpFloat float_2_5])])
  = VDict [(KInt 7, VInt 1); (KStr "b", VList [VFloat float_2_5])].
Proof.
  split; [|split; [|reflexivity]].
  - intros d. eexists. split; [reflexivity|].
    split; [apply dict_keys_map_values|].
    split; [now rewrite !map_map | apply dict_get_map_values].
  - intros l. eexists. split; [reflexivity|].
    split; [apply length_map | intros i; apply nth_error_map].
Qed.

Lemma box_native_number cell :
  (is_number cell = true -> is_native_number (box_native cell) = true) /\
  (is_number cell = false -> box_native cell = cell).
Proof. destruct cell; simpl; split; congruence. Qed.

Lemma label_pos_nth_error names j name :
  keys_distinct (map KStr names) = true ->
  nth_error names j = Some name ->
  label_pos (map KStr names) (KStr name) = Some j.
Proof.
  revert j. induction names as [|n names IH]; intros [|j]; simpl; try discriminate.
  - intros _ [= ->]. now rewrite String.eqb_refl.
  - intros H Hj. apply andb_prop in H as [H0 H].
    rewrite (IH j H Hj). simpl.
    destruct (String.eqb n name) eqn:E; [|reflexivity].
    apply String.eqb_eq in E. subst n. exfalso.
    apply negb_true_iff in H0.
    assert (E : existsb (key_eqb (KStr name)) (map KStr names) = true).
    { apply existsb_exists. exists (KStr name). split.
      - apply in_map. eapply nth_error_In; eauto.
      - apply String.eqb_refl. }
    congruence.
Qed.

(** C1: a table is normalized to one mapping per row, in row order; each
    mapping has the column names as its keys and sends a column name to the
    cell of that column, and a numeric cell arrives as a native int or float.
    The table with the single row a = 1, b = 2.5 gives the one mapping
    a = 1, b = 2.5. *)
Theorem to_python_types_table index names rows
  (Hnames : keys_distinct (map KStr names) = true)
  (Hrows : Forall (fun row => length row = length names) rows) :
  (exists records,
      to_python_types (VDataFrame index (map KStr names) rows)
      = VList (map VDict records) /\
      length records = length rows /\
      forall i row, nth_error rows i = Some row ->
        exists d, nth_error records i = Some d /\
          dict_keys d = map KStr names /\
          forall j name cell,
            nth_error names j = Some name -> nth_error row j = Some cell ->
            dict_get d (KStr name) = Some (box_native cell) /\
            (is_number cell = true -> is_native_number (box_native cell) = true) /\
            (is_number cell = false -> box_native cell = cell)) /\
  to_python_types
    (VDataFrame [KInt 0] [KStr "a"; KStr "b"] [[VNpInt 1; VNpFloat float_2_5]])
  = VList [VDict [(KStr "a", VInt 1); (KStr "b", VFloat float_2_5)]].
Proof.
  split; [|reflexivity].
  exists (df_to_dict_records (map KStr names) rows).
  split; [reflexivity|]. split; [apply length_map|].
  intros i row Hi. exists (row_to_dict (map KStr names) row).
  split; [unfold df_to_dict_records; now rewrite nth_error_map, Hi|].
  rewrite List.Forall_forall in Hrows.
  assert (Hlen : length row = length names)
    by (apply Hrows; eapply nth_error_In; eauto).
  split.
  - rewrite row_to_dict_distinct by exact Hnames.
    unfold dict_keys. rewrite map_fst_combine_firstn, length_map, Hlen.
    rewrite <- (length_map KStr names). apply firstn_all.
  - intros j name cell Hj Hcell. split; [|apply box_native_number].
    rewrite row_to_dict_get by exact Hnames. unfold row_cell.
    rewrite (label_pos_nth_error names j name Hnames Hj), Hcell. reflexivity.
Qed.

Lemma to_python_types_table_witness :
  exists records,
    to_python_types
      (VDataFrame [KInt 0; KInt 1] (map KStr ["a"; "b"])
                  [[VNpInt 1; VNpFloat float_2_5]; [VInt 7; VStr "x"]])
    = VList (map VDict records) /\ length records = 2%nat.
Proof.
  destruct (to_python_types_table [KInt 0; KInt 1] ["a"; "b"]
              [[VNpInt 1; VNpFloat float_2_5]; [VInt 7; VStr "x"]])
    as [[records [H [Hl _]]] _].
  - reflexivity.
  - repeat constructor.
  - exists records. split; [exact H | exact Hl].
Defined.

(** ** The export records *)

Lemma py_get_group r group :
  group_ok r group = true ->
  exists g, py_get (VDict r) group (VDict []) = Ok (VDict g) /\
    forall field, py_get (VDict g) field (VInt 0)
                  = Ok (report_field r group field).
Proof.
  unfold group_ok, report_field, py_get, dict_get_or.
  destruct (dict_get r (KStr group)) as [[]|]; try discriminate; intros _.
  - eexists. split; [reflexivity|]. reflexivity.
  - exists []. split; [reflexivity|]. reflexivity.
Qed.

Lemma kpi_metrics_eq r :
  group_ok r "revenue_metrics" = true ->
  group_ok r "customer_metrics" = true ->
  group_ok r "delivery_metrics" = true ->
  kpi_metrics (VDict r) = Ok (VDict (kpi_record r)).
Proof.
  intros Hrev Hcus Hdel.
  destruct (py_get_group r _ Hrev) as [g1 [G1 F1]].
  destruct (py_get_group r _ Hcus) as [g2 [G2 F2]].
  destruct (py_get_group r _ Hdel) as [g3 [G3 F3]].
  unfold kpi_metrics.
  repeat (rewrite ?G1, ?G2, ?G3, ?F1, ?F2, ?F3; cbn [result_bind]).
  reflexivity.
Qed.

(** C6: the KPI record has exactly six entries, taken from the revenue,
    customer and delivery groups of the report; an absent group counts as an
    empty mapping and an absent field as 0, and nothing is raised. *)
Theorem kpi_metrics_defaults r
  (Hrev : group_ok r "revenue_metrics" = true)
  (Hcus : group_ok r "customer_metrics" = true)
  (Hdel : group_ok r "delivery_metrics" = true) :
  kpi_metrics (VDict r) = Ok (VDict (kpi_record r)) /\
  dict_keys (kpi_record r)
  = map KStr ["total_orders"; "total_revenue"; "avg_order_value";
              "revenue_growth_pct"; "unique_customers"; "fast_delivery_pct"] /\
  (forall group field,
      dict_get r (KStr group) = None -> report_field r group field = VInt 0) /\
  (forall group g field,
      dict_get r (KStr group) = Some (VDict g) ->
      report_field r group field
      = match dict_get g (KStr field) with Some v => v | None => VInt 0 end).
Proof.
  split; [|split; [reflexivity|split]].
  - now apply kpi_metrics_eq.
  - intros group field H. unfold report_field. now rewrite H.
  - intros group g field H. unfold report_field. now rewrite H.
Qed.

Lemma kpi_metrics_defaults_witness :
  kpi_metrics (VDict [(KStr "revenue_metrics", VDict [(KStr "total_orders", VNpInt 7)])])
  = Ok (VDict [(KStr "total_orders", VNpInt 7);
               (KStr "total_revenue", VInt 0);
               (KStr "avg_order_value", VInt 0);
               (KStr "revenue_growth_pct", VInt 0);
               (KStr "unique_customers", VInt 0);
               (KStr "fast_delivery_pct", VInt 0)]).
Proof.
  apply (kpi_metrics_defaults
           [(KStr "revenue_metrics", VDict [(KStr "total_orders", VNpInt 7)])]);
    reflexivity.
Defined.

Lemma monthly_item_entry cfg columns row :
  keys_distinct columns = true ->
  to_python_types (monthly_item cfg (row_to_dict columns row))
  = month_entry cfg columns row.
Proof.
  intros H. unfold monthly_item, month_entry, dict_get_or, cell_or.
  rewrite !row_to_dict_get by exact H. cbn [to_python_types map fst snd].
  destruct (row_cell columns row "month"), (row_cell columns row "revenue"),
    (row_cell columns row "orders"); reflexivity.
Qed.

Lemma category_item_entry columns row :
  keys_distinct columns = true ->
  to_python_types (category_item (row_to_dict columns row))
  = category_entry columns row.
Proof.
  intros H. unfold category_item, category_entry, dict_get_or, cell_or.
  rewrite !row_to_dict_get by exact H. cbn [to_python_types map fst snd].
  destruct (row_cell columns row "product_category_name"),
    (row_cell columns row "total_revenue"),
    (row_cell columns row "unique_orders"),
    (row_cell columns row "items_sold"); reflexivity.
Qed.

(** C2: when monthly_trends is a table, every row becomes a mapping with the
    keys month, revenue, year, orders in this order; month, revenue and orders
    are the row's cells (0 when the table has no such column) and year is the
    configured analysis year.  The row month = 1, revenue = 100, orders = 5
    with analysis year 2023 gives month = 1, revenue = 100, year = 2023,
    orders = 5. *)
Theorem monthly_data_table cfg r index columns rows
  (Hmt : dict_get r (KStr "monthly_trends") = Some (VDataFrame index columns rows))
  (Hcols : keys_distinct columns = true) :
  (exists out,
      monthly_data cfg (VDict r) = Ok out /\
      to_python_types out = VList (map (month_entry cfg columns) rows)) /\
  (exists out,
      monthly_data config_2023 monthly_example_report = Ok out /\
      to_python_types out
      = VList [VDict [(KStr "month", VInt 1); (KStr "revenue", VInt 100);
                      (KStr "year", VInt 2023); (KStr "orders", VInt 5)]]).
Proof.
  split; [|eexists; split; reflexivity].
  unfold monthly_data, py_get. rewrite Hmt. cbn.
  eexists. split; [reflexivity|].
  cbn [to_python_types]. f_equal. unfold df_to_dict_records.
  rewrite !map_map. apply map_ext. intros row.
  now apply monthly_item_entry.
Qed.

Lemma monthly_data_table_witness :
  exists out,
    monthly_data config_2023 monthly_example_report = Ok out /\
    to_python_types out
    = VList (map (month_entry config_2023
                              [KStr "month"; KStr "revenue"; KStr "orders"])
                 [[VNpInt 1; VNpInt 100; VNpInt 5]]).
Proof.
  apply (monthly_data_table config_2023
           [(KStr "monthly_trends",
             VDataFrame [KInt 0] [KStr "month"; KStr "revenue"; KStr "orders"]
                        [[VNpInt 1; VNpInt 100; VNpInt 5]])]
           [KInt 0] [KStr "month"; KStr "revenue"; KStr "orders"]
           [[VNpInt 1; VNpInt 100; VNpInt 5]]); reflexivity.
Defined.

Lemma length_firstn_15 {A} (l : list A) :
  (15 < length l)%nat -> length (firstn 15 l) = 15%nat.
Proof. intros H. rewrite length_firstn. lia. Qed.

(** C3, as the code has it: a category table with more than 15 rows is cut to
    its first 15 rows, in their order, and each row is renamed
    (product_category_name to category, total_revenue to revenue,
    unique_orders to orders, items_sold kept); a plain list with more than 15
    entries is cut to its first 15 entries, in their order, and each entry is
    normalized with its keys as they are. *)
Theorem categories_data_first_15 r pp
  (Hpp : dict_get r (KStr "product_performance") = Some (VDict pp)) :
  (forall index columns rows,
      dict_get pp (KStr "top_categories") = Some (VDataFrame index columns rows) ->
      keys_distinct columns = true ->
      (15 < length rows)%nat ->
      exists out,
        categories_data (VDict r) = Ok out /\
        to_python_types out
        = VList (map (category_entry columns) (firstn 15 rows)) /\
        length (firstn 15 rows) = 15%nat) /\
  (forall l,
      dict_get pp (KStr "top_categories") = Some (VList l) ->
      (15 < length l)%nat ->
      categories_data (VDict r) = Ok (VList (firstn 15 l)) /\
      to_python_types (VList (firstn 15 l))
      = VList (map to_python_types (firstn 15 l)) /\
      length (firstn 15 l) = 15%nat).
Proof.
  split.
  - intros index columns rows Htop Hcols Hlen.
    unfold categories_data, py_get. rewrite Hpp. cbn [result_bind].
    rewrite Htop. cbn.
    eexists. split; [reflexivity|]. split; [|now apply length_firstn_15].
    cbn [to_python_types]. f_equal. unfold df_to_dict_records.
    rewrite !map_map. apply map_ext. intros row.
    now apply category_item_entry.
  - intros l Htop Hlen.
    unfold categories_data, py_get. rewrite Hpp. cbn [result_bind].
    rewrite Htop. cbn.
    split; [reflexivity|]. split; [reflexivity|now apply length_firstn_15].
Qed.

Lemma categories_data_first_15_witness :
  exists out,
    categories_data (categories_report
                       (VDataFrame [] category_columns twenty_category_rows))
    = Ok out /\
    to_python_types out
    = VList (map (category_entry category_columns)
                 (firstn 15 twenty_category_rows)) /\
    length (firstn 15 twenty_category_rows) = 15%nat.
Proof.
  refine (proj1 (categories_data_first_15
                   [(KStr "product_performance",
                     VDict [(KStr "top_categories",
                             VDataFrame [] category_columns twenty_category_rows)])]
                   [(KStr "top_categories",
                     VDataFrame [] category_columns twenty_category_rows)]
                   _) [] category_columns twenty_category_rows _ _ _).
  - reflexivity.
  - reflexivity.
  - reflexivity.
  - vm_compute. lia.
Defined.

(** C3 as stated fails on a plain list: twenty mappings are cut to fifteen,
    but the entries keep the key product_category_name and get no key
    category. *)
Lemma categories_plain_list_not_renamed :
  length twenty_categories = 20%nat /\
  exists out,
    categories_data (categories_report (VList twenty_categories)) = Ok out /\
    to_python_types out = VList (firstn 15 twenty_categories) /\
    to_python_types out <> VList (map renamed_entry (firstn 15 twenty_categories)).
Proof.
  split; [reflexivity|].
  eexists. split; [reflexivity|]. split; [reflexivity|].
  vm_compute. discriminate.
Qed.

(** Without a to_dict attribute, monthly_trends is the revenue record. *)
Lemma monthly_data_not_table cfg report mt :
  py_get report "monthly_trends" (VList []) = Ok mt ->
  hasattr_to_dict mt = false ->
  monthly_data cfg report = Ok mt.
Proof.
  intros Hget Hattr. unfold monthly_data. rewrite Hget. cbn [result_bind].
  now rewrite Hattr.
Qed.

(** ** Counting values *)

Lemma tally_get_add t x k :
  tally_get (tally_add t x) k =
  if key_eqb x k
  then Some (match tally_get t k with Some c => c + 1 | None => 1 end)
  else tally_get t k.
Proof.
  induction t as [|[k0 c0] t IH]; simpl; [reflexivity|].
  destruct (key_eqb k0 x) eqn:E; simpl.
  - rewrite (key_eqb_congr k0 x k E). now destruct (key_eqb x k).
  - rewrite IH. destruct (key_eqb k0 k) eqn:E0; [|reflexivity].
    destruct (key_eqb x k) eqn:E1; [|reflexivity].
    rewrite key_eqb_sym in E1.
    rewrite (key_eqb_trans k0 k x E0 E1) in E. discriminate.
Qed.

Lemma occurrences_cons x ks k :
  occurrences (x :: ks) k = (if key_eqb x k then 1 else 0) + occurrences ks k.
Proof.
  unfold occurrences. simpl. destruct (key_eqb x k); simpl length; lia.
Qed.

Lemma occurrences_nonneg ks k : 0 <= occurrences ks k.
Proof. unfold occurrences. lia. Qed.

Lemma tally_get_fold ks acc k :
  tally_get (fold_left tally_add ks acc) k
  = bump (tally_get acc k) (occurrences ks k).
Proof.
  revert acc. induction ks as [|x ks IH]; intros acc; simpl; [reflexivity|].
  rewrite IH, tally_get_add, occurrences_cons.
  pose proof (occurrences_nonneg ks k) as Hc. unfold bump.
  destruct (key_eqb x k).
  - destruct (Z.eqb_spec (occurrences ks k) 0) as [->|Hn];
      destruct (Z.eqb_spec (1 + occurrences ks k) 0); try lia;
      destruct (tally_get acc k); f_equal; lia.
  - reflexivity.
Qed.

(** The tally stores, under each key, how often it occurs. *)
Lemma tally_get_tally ks k :
  tally_get (tally ks) k
  = if 0 <? occurrences ks k then Some (occurrences ks k) else None.
Proof.
  unfold tally. rewrite tally_get_fold. unfold bump. simpl.
  pose proof (occurrences_nonneg ks k).
  destruct (Z.eqb_spec (occurrences ks k) 0), (Z.ltb_spec 0 (occurrences ks k));
    try reflexivity; lia.
Qed.

Lemma keys_distinct_snoc ks x :
  keys_distinct ks = true ->
  existsb (fun k' => key_eqb k' x) ks = false ->
  keys_distinct (ks ++ [x]) = true.
Proof.
  induction ks as [|k ks IH]; simpl; [reflexivity|].
  intros H Hx. apply andb_prop in H as [H0 H].
  apply orb_false_elim in Hx as [Hk Hx].
  rewrite (IH H Hx), andb_true_r. rewrite existsb_app. simpl.
  apply negb_true_iff in H0. now rewrite H0, Hk.
Qed.

Lemma tally_add_keys t x :
  map fst (tally_add t x)
  = if existsb (fun k' => key_eqb k' x) (map fst t)
    then map fst t else map fst t ++ [x].
Proof.
  induction t as [|[k0 c0] t IH]; simpl; [reflexivity|].
  destruct (key_eqb k0 x); simpl; [reflexivity|].
  rewrite IH. now destruct (existsb _ (map fst t)).
Qed.

Lemma tally_keys_distinct ks acc :
  keys_distinct (map fst acc) = true ->
  keys_distinct (map fst (fold_left tally_add ks acc)) = true.
Proof.
  revert acc. induction ks as [|x ks IH]; intros acc H; simpl; [exact H|].
  apply IH. rewrite tally_add_keys.
  destruct (existsb _ (map fst acc)) eqn:E; [exact H|].
  now apply keys_distinct_snoc.
Qed.

Lemma existsb_insert_desc (f : key -> bool) kc s :
  existsb f (map fst (insert_desc kc s))
  = f (fst kc) || existsb f (map fst s).
Proof.
  induction s as [|x s IH]; simpl; [reflexivity|].
  destruct (snd x <=? snd kc); simpl; [reflexivity|].
  rewrite IH. now destruct (f (fst x)), (f (fst kc)).
Qed.

Lemma insert_desc_keys_distinct kc s :
  keys_distinct (fst kc :: map fst s) = true ->
  keys_distinct (map fst (insert_desc kc s)) = true.
Proof.
  induction s as [|x s IH]; [intros H; exact H|].
  intros H. simpl. destruct (snd x <=? snd kc); [exact H|].
  simpl in H. apply andb_prop in H as [H0 H]. apply andb_prop in H as [H1 H].
  apply negb_true_iff in H0. apply orb_false_elim in H0 as [H0 H0'].
  apply negb_true_iff in H1.
  simpl. rewrite existsb_insert_desc, H1, orb_false_r.
  rewrite (key_eqb_sym (fst x) (fst kc)), H0. simpl.
  apply IH. simpl. now rewrite H0', H.
Qed.

Lemma sort_desc_keys_distinct t :
  keys_distinct (map fst t) = true ->
  keys_distinct (map fst (sort_desc t)) = true.
Proof.
  induction t as [|a t IH]; [reflexivity|].
  intros H. simpl in H. apply andb_prop in H as [H0 H].
  simpl. apply insert_desc_keys_distinct. simpl.
  rewrite (IH H), andb_true_r.
  apply negb_true_iff. apply negb_true_iff in H0. rewrite <- H0.
  clear. induction t as [|b t IH]; [reflexivity|].
  simpl. rewrite existsb_insert_desc, IH. reflexivity.
Qed.

Lemma tally_get_unmatched a t k :
  existsb (key_eqb a) (map fst t) = false ->
  key_eqb a k = true ->
  tally_get t k = None.
Proof.
  intros H Ha. induction t as [|[x c] t IH]; [reflexivity|].
  simpl in H. apply orb_false_elim in H as [Hx H]. simpl.
  destruct (key_eqb x k) eqn:E; [|now apply IH].
  rewrite key_eqb_sym in E.
  rewrite (key_eqb_trans a k x Ha E) in Hx. discriminate.
Qed.

Lemma tally_get_insert_desc kc s k :
  (key_eqb (fst kc) k = true -> tally_get s k = None) ->
  tally_get (insert_desc kc s) k = tally_get (kc :: s) k.
Proof.
  induction s as [|[x c] s IH]; [reflexivity|].
  intros H. simpl. destruct (c <=? snd kc); [reflexivity|].
  destruct kc as [k0 c0]. simpl in *.
  destruct (key_eqb x k) eqn:E.
  - destruct (key_eqb k0 k); [|reflexivity]. now specialize (H eq_refl).
  - rewrite IH; [reflexivity|]. exact H.
Qed.

(** Sorting by count changes no lookup. *)
Lemma tally_get_sort_desc t k :
  keys_distinct (map fst t) = true ->
  tally_get (sort_desc t) k = tally_get t k.
Proof.
  induction t as [|[a c] t IH]; [reflexivity|].
  intros H. simpl in H. apply andb_prop in H as [H0 H].
  apply negb_true_iff in H0. simpl sort_desc.
  rewrite tally_get_insert_desc.
  - simpl. now rewrite (IH H).
  - simpl. intros Ha. rewrite (IH H). eapply tally_get_unmatched; eauto.
Qed.

Lemma dict_get_tally_dict t k :
  dict_get (tally_dict t) k = option_map VInt (tally_get t k).
Proof.
  induction t as [|[k0 c] t IH]; simpl; [reflexivity|].
  now destruct (key_eqb k0 k).
Qed.

Lemma series_to_dict_tally t :
  keys_distinct (map fst t) = true ->
  series_to_dict (map fst t) (map (fun kc => VNpInt (snd kc)) t) = tally_dict t.
Proof.
  intros H. unfold series_to_dict.
  assert (E : combine (map fst t) (map box_native (map (fun kc => VNpInt (snd kc)) t))
              = tally_dict t).
  { clear. induction t as [|[k c] t IH]; simpl; [reflexivity|]. now rewrite IH. }
  rewrite E. apply dict_of_pairs_distinct.
  unfold tally_dict. rewrite map_map. exact H.
Qed.

(** ** The review-score histogram *)

Lemma mask_select_map {A} (f : A -> bool) (l : list A) :
  mask_select l (map f l) = List.filter f l.
Proof.
  induction l as [|a l IH]; simpl; [reflexivity|].
  rewrite IH. reflexivity.
Qed.

Lemma column_cells_filter (p : value -> bool) rows j :
  column_cells (List.filter (fun row => p (nth j row VNone)) rows) j
  = List.filter p (column_cells rows j).
Proof.
  unfold column_cells. induction rows as [|row rows IH]; simpl; [reflexivity|].
  destruct (p (nth j row VNone)); simpl; now rewrite IH.
Qed.

Lemma filter_filter_same {A} (p : A -> bool) (l : list A) :
  List.filter p (List.filter p l) = List.filter p l.
Proof.
  induction l as [|a l IH]; simpl; [reflexivity|].
  destruct (p a) eqn:E; simpl; rewrite ?E, IH; reflexivity.
Qed.

Lemma occurrences_histogram scores ks k :
  result_map cell_key (List.filter (fun c => negb (is_missing c)) scores) = Ok ks ->
  occurrences ks k = score_histogram scores k.
Proof.
  unfold occurrences, score_histogram. intros H. f_equal. revert ks H.
  induction scores as [|c scores IH]; intros ks H.
  - simpl in H. now injection H as <-.
  - cbn [List.filter] in *. unfold score_matches at 1.
    destruct (is_missing c) eqn:Em; cbn [negb andb] in *.
    + now apply IH.
    + cbn [result_map] in H.
      destruct (cell_key c) as [kc|e]; cbn [result_bind] in H; [|discriminate].
      destruct (result_map cell_key _) as [ks'|e]; cbn [result_bind] in H;
        [|discriminate].
      injection H as <-. cbn [List.filter].
      destruct (key_eqb kc k); cbn [length]; now rewrite (IH ks' eq_refl).
Qed.

(** The histogram, once the review_score column is found and its present
    cells are hashable. *)
Lemma score_counts_eq pd t j ks :
  label_positions (df_columns t) (KStr "review_score") = [j] ->
  result_map cell_key
    (List.filter (fun c => negb (is_missing c)) (column_cells (df_rows t) j)) = Ok ks ->
  score_counts pd t = Ok (tally_dict (sort_desc (tally ks))).
Proof.
  intros Hcol Hks. unfold score_counts, df_getitem. rewrite Hcol.
  cbn [result_bind selection_notna df_select df_mask df_columns df_rows df_index
       series_notna s_values].
  rewrite Hcol. cbn [result_bind selection_value_counts].
  unfold series_value_counts, series_notna. cbn [s_values].
  unfold column_cells at 2. rewrite map_map.
  rewrite (mask_select_map (fun row => negb (is_missing (nth j row VNone)))).
  rewrite (column_cells_filter (fun c => negb (is_missing c))).
  rewrite filter_filter_same, Hks. cbn [result_bind s_index s_values].
  rewrite series_to_dict_tally; [reflexivity|].
  apply sort_desc_keys_distinct. now apply tally_keys_distinct.
Qed.

Lemma tally_dict_normal t :
  map (fun kv => (fst kv, to_python_types (snd kv))) (tally_dict t) = tally_dict t.
Proof.
  unfold tally_dict. rewrite map_map. reflexivity.
Qed.

(** C4: score_counts is the histogram of the review_score column of the
    combined dataset (the one column with that label): a score value is a key
    exactly when some row has it, its count is the number of rows that have
    it, and rows with a missing score are not counted; the reviews record is
    produced whenever the customer_satisfaction group is absent or a mapping,
    and it holds that histogram unchanged.  The scores 5, 5, 4, 3 and a
    missing one give 5: 2, 4: 1, 3: 1. *)
Theorem score_counts_histogram pd t j ks
  (Hcol : label_positions (df_columns t) (KStr "review_score") = [j])
  (Hks : result_map cell_key
           (List.filter (fun c => negb (is_missing c)) (column_cells (df_rows t) j))
         = Ok ks) :
  (exists counts,
      score_counts pd t = Ok counts /\
      keys_distinct (dict_keys counts) = true /\
      (forall k,
          dict_get counts k
          = if 0 <? score_histogram (column_cells (df_rows t) j) k
            then Some (VInt (score_histogram (column_cells (df_rows t) j) k))
            else None) /\
      (forall r,
          group_ok r "customer_satisfaction" = true ->
          exists out,
            reviews_export pd t (VDict r) = Ok out /\
            py_get (to_python_types out) "score_counts" VNone = Ok (VDict counts)) /\
      (forall report out,
          reviews_export pd t report = Ok out ->
          py_get (to_python_types out) "score_counts" VNone = Ok (VDict counts))) /\
  score_counts pd five_reviews
  = Ok [(KInt 5, VInt 2); (KInt 4, VInt 1); (KInt 3, VInt 1)].
Proof.
  split; [|reflexivity].
  exists (tally_dict (sort_desc (tally ks))).
  pose proof (score_counts_eq pd t j ks Hcol Hks) as Heq.
  assert (Hd : keys_distinct (map fst (sort_desc (tally ks))) = true)
    by (apply sort_desc_keys_distinct; now apply tally_keys_distinct).
  split; [exact Heq|]. split; [|split; [|split]].
  - unfold dict_keys, tally_dict. now rewrite map_map.
  - intros k. rewrite dict_get_tally_dict, tally_get_sort_desc, tally_get_tally.
    + rewrite (occurrences_histogram _ ks k Hks).
      now destruct (0 <? score_histogram _ k).
    + now apply tally_keys_distinct.
  - intros r Hg. destruct (py_get_group r _ Hg) as [g [Hget Hfield]].
    unfold reviews_export. rewrite Hget. cbn [result_bind].
    rewrite Heq. cbn [result_bind].
    unfold py_get. cbn [result_bind].
    eexists. split; [reflexivity|]. cbn [to_python_types map fst snd dict_get].
    rewrite tally_dict_normal. reflexivity.
  - intros report out Hout. unfold reviews_export in Hout. rewrite Heq in Hout.
    destruct (py_get report "customer_satisfaction" (VDict [])) as [cs|e];
      cbn [result_bind] in Hout; [|discriminate].
    repeat match type of Hout with
           | context [py_get cs ?f ?d] =>
               destruct (py_get cs f d); cbn [result_bind] in Hout;
               [|discriminate]
           end.
    injection Hout as <-. cbn [to_python_types map fst snd].
    rewrite tally_dict_normal. reflexivity.
Qed.

Lemma score_counts_histogram_witness :
  exists counts,
    score_counts example_pandas five_reviews = Ok counts /\
    dict_get counts (KFloat (S754_finite false 5 0)) = Some (VInt 2) /\
    dict_get counts KNone = None /\
    exists out,
      reviews_export example_pandas five_reviews satisfaction_report = Ok out /\
      py_get (to_python_types out) "score_counts" VNone = Ok (VDict counts).
Proof.
  destruct (score_counts_histogram example_pandas five_reviews 1%nat
              [KInt 5; KInt 5; KInt 4; KInt 3])
    as [[counts [H [_ [Hget [Hrev _]]]]] _].
  - reflexivity.
  - reflexivity.
  - exists counts. split; [exact H|]. rewrite !Hget.
    split; [reflexivity|]. split; [reflexivity|].
    apply (Hrev [(KStr "customer_satisfaction",
                  VDict [(KStr "avg_review_score", VNpFloat float_2_5);
                         (KStr "total_reviews", VNpInt 4)])]).
    reflexivity.
Defined.

(** ** The combined dataset *)

Lemma series_isin_years index cells ay cy :
  forallb hashable cells = true ->
  series_isin (mkSeries index cells) [KInt ay; KInt cy]
  = Ok (map (in_years [ay; cy]) cells).
Proof.
  unfold series_isin. cbn [s_values].
  induction cells as [|c cells IH]; [reflexivity|].
  cbn [forallb]. intros H. apply andb_prop in H as [Hc H].
  cbn [result_map map]. rewrite (IH H).
  unfold hashable in Hc.
  destruct (cell_key c) as [k|e] eqn:E; [|discriminate].
  assert (Hy : in_years [ay; cy] c = existsb (key_eqb k) [KInt ay; KInt cy])
    by (unfold in_years; rewrite E; reflexivity).
  rewrite Hy. reflexivity.
Qed.

(** C5: without a comparison year (the constant is None or 0, the test of
    line 55) the combined dataset is the primary dataset, the one requested
    for the analysis year, the month and the status delivered.  With a
    comparison year it is the dataset requested without a year filter, same
    month and status, cut down to the rows whose purchase_year (the one
    column with that label) is the analysis year or the comparison year. *)
Theorem combined_dataset_cases pd cfg loader :
  (truthy (COMPARISON_YEAR cfg) = false ->
   combined_dataset pd cfg loader
   = create_sales_dataset loader (Some (ANALYSIS_YEAR cfg)) (ANALYSIS_MONTH cfg)
                          "delivered") /\
  (forall cy sales comparison all j,
      COMPARISON_YEAR cfg = Some cy -> cy <> 0 ->
      create_sales_dataset loader (Some (ANALYSIS_YEAR cfg)) (ANALYSIS_MONTH cfg)
                           "delivered" = Ok sales ->
      create_sales_dataset loader (Some cy) (ANALYSIS_MONTH cfg) "delivered"
      = Ok comparison ->
      create_sales_dataset loader None (ANALYSIS_MONTH cfg) "delivered" = Ok all ->
      label_positions (df_columns all) (KStr "purchase_year") = [j] ->
      forallb hashable (column_cells (df_rows all) j) = true ->
      exists combined,
        combined_dataset pd cfg loader = Ok combined /\
        df_columns combined = df_columns all /\
        df_rows combined
        = List.filter (fun row => in_years [ANALYSIS_YEAR cfg; cy] (nth j row VNone))
                      (df_rows all) /\
        df_index combined
        = mask_select (df_index all)
            (map (fun row => in_years [ANALYSIS_YEAR cfg; cy] (nth j row VNone))
                 (df_rows all))).
Proof.
  split.
  - intros H. unfold combined_dataset. rewrite H.
    destruct (create_sales_dataset loader _ _ _); reflexivity.
  - intros cy sales comparison all j Hcy Hnz Hs Hc Ha Hj Hh.
    unfold combined_dataset. rewrite Hs, Hcy. cbn [result_bind truthy].
    destruct (Z.eqb_spec cy 0) as [|_]; [contradiction|]. cbn [negb].
    rewrite Hc. cbn [result_bind]. rewrite Ha. cbn [result_bind].
    unfold df_getitem. rewrite Hj. cbn [result_bind selection_isin].
    rewrite (series_isin_years _ _ _ _ Hh). cbn [result_bind].
    eexists. split; [reflexivity|].
    cbn [df_select df_mask df_columns df_rows df_index]. split; [reflexivity|].
    unfold column_cells. rewrite map_map. split; [|reflexivity].
    apply mask_select_map.
Qed.

Lemma combined_dataset_cases_witness :
  combined_dataset example_pandas (mkConfig 2023 None None "in" "out") example_loader
  = create_sales_dataset example_loader (Some 2023) None "delivered" /\
  exists combined,
    combined_dataset example_pandas config_2023 example_loader = Ok combined /\
    df_rows combined
    = [[VStr "a"; VNpInt 2023]; [VStr "b"; VNpInt 2022]; [VStr "d"; VNpInt 2023]].
Proof.
  split.
  - apply (proj1 (combined_dataset_cases example_pandas
                    (mkConfig 2023 None None "in" "out") example_loader)).
    reflexivity.
  - destruct (proj2 (combined_dataset_cases example_pandas config_2023 example_loader)
                2022
                (mkDataFrame [KNone; KNone] [KStr "order_id"; KStr "purchase_year"]
                   [[VStr "a"; VNpInt 2023]; [VStr "d"; VNpInt 2023]])
                (mkDataFrame [KNone] [KStr "order_id"; KStr "purchase_year"]
                   [[VStr "b"; VNpInt 2022]])
                (mkDataFrame [KNone; KNone; KNone; KNone]
                   [KStr "order_id"; KStr "purchase_year"] orders_2021_2023)
                1%nat)
      as [combined [H [_ [Hrows _]]]].
    + reflexivity.
    + lia.
    + reflexivity.
    + reflexivity.
    + reflexivity.
    + reflexivity.
    + reflexivity.
    + exists combined. split; [exact H | exact Hrows].
Defined.

(** ** The output files *)

Lemma lookup_apply_writes ws (fs : files) path :
  apply_writes ws fs !! path
  = match written ws path with
    | Some text => Some text
    | None => fs !! path
    end.
Proof.
  revert fs. induction ws as [|[p text] ws IH]; intros fs; [reflexivity|].
  cbn [apply_writes fold_left written fst snd]. fold (apply_writes ws).
  rewrite IH. destruct (written ws path); [reflexivity|].
  destruct (String.eqb_spec p path) as [->|Hne].
  - apply lookup_insert_eq.
  - now apply lookup_insert_ne.
Qed.

Lemma apply_writes_app ws ws' (fs : files) :
  apply_writes (ws ++ ws') fs = apply_writes ws' (apply_writes ws fs).
Proof. unfold apply_writes. apply fold_left_app. Qed.

Lemma written_none ws path :
  ~ In path (map fst ws) -> written ws path = None.
Proof.
  induction ws as [|[p text] ws IH]; [reflexivity|].
  simpl. intros H. rewrite IH by tauto.
  destruct (String.eqb_spec p path); [|reflexivity]. tauto.
Qed.

Lemma written_in ws path text :
  List.NoDup (map fst ws) -> In (path, text) ws -> written ws path = Some text.
Proof.
  induction ws as [|[p t] ws IH]; [contradiction|].
  simpl. intros Hnd Hin. apply List.NoDup_cons_iff in Hnd as [Hp Hnd].
  destruct Hin as [[= -> ->]|Hin].
  - rewrite written_none by exact Hp. now rewrite String.eqb_refl.
  - now rewrite (IH Hnd Hin).
Qed.

(** The lookups after a run that wrote [ws], a list of distinct paths. *)
Lemma lookup_after_writes ws (fs : files) :
  List.NoDup (map fst ws) ->
  (forall path text, In (path, text) ws -> apply_writes ws fs !! path = Some text) /\
  (forall path, ~ In path (map fst ws) -> apply_writes ws fs !! path = fs !! path).
Proof.
  intros Hnd. split.
  - intros path text Hin. rewrite lookup_apply_writes.
    now rewrite (written_in ws path text Hnd Hin).
  - intros path Hout. rewrite lookup_apply_writes. now rewrite written_none.
Qed.

Lemma string_eqb_app_prefix p a b :
  String.eqb (p ++ a)%string (p ++ b)%string = String.eqb a b.
Proof.
  induction p as [|c p IH]; [reflexivity|].
  simpl. now rewrite Ascii.eqb_refl.
Qed.

Lemma out_path_eqb cfg a b :
  String.eqb (out_path cfg a) (out_path cfg b) = String.eqb a b.
Proof.
  unfold out_path. rewrite string_eqb_app_prefix. reflexivity.
Qed.

Lemma out_path_inj cfg a b : out_path cfg a = out_path cfg b -> a = b.
Proof.
  intros H. apply String.eqb_eq. rewrite <- (out_path_eqb cfg a b).
  now apply String.eqb_eq.
Qed.

Lemma export_records_names pd cfg combined_data report :
  map fst (export_records pd cfg combined_data report) = output_files.
Proof. reflexivity. Qed.

Lemma NoDup_output_files : List.NoDup output_files.
Proof.
  unfold output_files.
  repeat (constructor; [cbn; intuition discriminate|]).
  constructor.
Qed.

Lemma NoDup_paths cfg names :
  List.NoDup names -> List.NoDup (map (out_path cfg) names).
Proof.
  induction 1 as [|n names Hn _ IH]; simpl; constructor; [|exact IH].
  intros Hin. apply in_map_iff in Hin as [m [Hm Hin]].
  apply out_path_inj in Hm. subst m. contradiction.
Qed.

Lemma NoDup_app_disjoint {A} (l1 l2 : list A) a :
  List.NoDup (l1 ++ l2) -> In a l1 -> In a l2 -> False.
Proof.
  induction l1 as [|x l1 IH]; [intros _ []|].
  simpl. intros Hnd. apply List.NoDup_cons_iff in Hnd as [Hx Hnd].
  intros [->|H1] H2; [|now apply IH].
  apply Hx. apply in_or_app. now right.
Qed.

Lemma NoDup_app_front {A} (l1 l2 : list A) :
  List.NoDup (l1 ++ l2) -> List.NoDup l1.
Proof.
  induction l1 as [|x l1 IH]; [constructor|].
  simpl. intros Hnd. apply List.NoDup_cons_iff in Hnd as [Hx Hnd].
  constructor; [|now apply IH].
  intros H. apply Hx. apply in_or_app. now left.
Qed.

Lemma in_combine_nth {A B} (l : list A) (l' : list B) i a b :
  nth_error l i = Some a -> nth_error l' i = Some b -> In (a, b) (combine l l').
Proof.
  revert l' i. induction l as [|x l IH]; intros [|y l'] [|i]; simpl;
    try discriminate.
  - intros [= ->] [= ->]. now left.
  - intros Ha Hb. right. eapply IH; eauto.
Qed.

Lemma Forall2_nth {A B} (P : A -> B -> Prop) l l' i a :
  Forall2 P l l' -> nth_error l i = Some a ->
  exists b, nth_error l' i = Some b /\ P a b.
Proof.
  intros H. revert i. induction H as [|x y l l' Hxy _ IH]; intros [|i]; simpl;
    try discriminate.
  - intros [= ->]. eauto.
  - apply IH.
Qed.

(** A directory cannot be made where a regular file is. *)
Lemma path_blocked_file (fs : files) prefix rest :
  is_Some (fs !! (prefix ++ rest)%string) -> path_blocked fs prefix rest = true.
Proof.
  revert prefix. induction rest as [|c rest IH]; intros prefix H.
  - cbn [path_blocked]. apply bool_decide_eq_true.
    assert (E : (prefix ++ "")%string = prefix).
    { clear. induction prefix as [|a prefix IHp]; [reflexivity|].
      change (String a (prefix ++ "")%string = String a prefix). now rewrite IHp. }
    now rewrite E in H.
  - cbn [path_blocked]. rewrite IH; [apply orb_true_r|].
    assert (E : ((prefix ++ String c EmptyString) ++ rest)%string
                = (prefix ++ String c rest)%string).
    { clear. induction prefix as [|a prefix IHp]; [reflexivity|].
      change (String a ((prefix ++ String c EmptyString) ++ rest)%string
              = String a (prefix ++ String c rest)%string).
      now rewrite IHp. }
    now rewrite E.
Qed.

Section Runs.

Variable load_and_process_data : string -> result (EcommerceDataLoader * value).
Variable new_BusinessMetricsCalculator : DataFrame -> result BusinessMetricsCalculator.
Variable json_dump : value -> dump_outcome.
Variable pd : Pandas.

#[local] Abbreviation run os :=
  (export_data load_and_process_data new_BusinessMetricsCalculator json_dump os pd).
#[local] Abbreviation before_writing :=
  (upstream load_and_process_data new_BusinessMetricsCalculator pd).
#[local] Abbreviation path_of cfg := (fun record : string * result value =>
                                        out_path cfg (fst record)).

(** One file: it is written in full exactly when the encoder accepts the
    record and the operating system lets the file be opened and written. *)
Lemma write_json_ok os path data (fs fs' : files) :
  write_json json_dump os path data fs = (fs', Ok tt) <->
  exists text,
    json_dump (to_python_types data) = Dumped text /\
    open_error os path fs = None /\
    os_write os path text fs = None /\
    fs' = <[path := text]> fs.
Proof.
  unfold write_json. split.
  - destruct (open_error os path fs); [discriminate|].
    destruct (json_dump (to_python_types data)) as [text|partial e].
    + destruct (os_write os path text fs) as [[partial e]|] eqn:E; [discriminate|].
      intros [= <-]. exists text. auto.
    + destruct (os_write os path partial fs) as [[partial' e']|]; discriminate.
  - intros (text & -> & -> & -> & ->). reflexivity.
Qed.

Lemma write_json_other os path data (fs : files) path' :
  path' <> path ->
  fst (write_json json_dump os path data fs) !! path' = fs !! path'.
Proof.
  intros Hne. unfold write_json.
  destruct (open_error os path fs); [reflexivity|].
  destruct (json_dump (to_python_types data)) as [text|partial e].
  - destruct (os_write os path text fs) as [[partial e]|]; cbn [fst];
      now apply lookup_insert_ne.
  - destruct (os_write os path partial fs) as [[partial' e']|]; cbn [fst];
      now apply lookup_insert_ne.
Qed.

Lemma write_records_other os cfg records (fs : files) path :
  ~ In path (map (path_of cfg) records) ->
  fst (write_records json_dump os cfg records fs) !! path = fs !! path.
Proof.
  revert fs. induction records as [|[name res] records IH]; intros fs Hout;
    [reflexivity|].
  cbn [write_records]. unfold io_bind, io_lift.
  destruct res as [data|e]; [|reflexivity].
  cbn [map fst In] in Hout.
  assert (Hne : path <> out_path cfg name) by (intros ->; apply Hout; now left).
  assert (Hrest : ~ In path (map (path_of cfg) records))
    by (intros Hin; apply Hout; now right).
  pose proof (write_json_other os (out_path cfg name) data fs path Hne) as Hw.
  destruct (write_json json_dump os (out_path cfg name) data fs) as [fs1 [[]|e]].
  - rewrite (IH _ Hrest). exact Hw.
  - exact Hw.
Qed.

(** The records written so far: when the first records are encoded and the
    operating system takes their texts, the run goes on with the next
    record from the state with those texts. *)
Lemma write_records_done os cfg done texts rest (fs : files) :
  Forall2 (encoded json_dump) done texts ->
  os_allows os (combine (map (path_of cfg) done) texts) fs ->
  write_records json_dump os cfg (done ++ rest) fs
  = write_records json_dump os cfg rest
      (apply_writes (combine (map (path_of cfg) done) texts) fs).
Proof.
  intros HF. revert fs.
  induction HF as [|[name res] text done texts [data [Hres Hdump]] _ IH];
    intros fs Hos; [reflexivity|].
  simpl in Hres. subst res. destruct Hos as (Hopen & Hwrite & Hos).
  cbn [fst] in Hopen, Hwrite, Hos.
  cbn [app write_records]. unfold io_bind at 1 2, io_lift.
  assert (E : write_json json_dump os (out_path cfg name) data fs
              = (<[out_path cfg name := text]> fs, Ok tt)).
  { apply write_json_ok. exists text. auto. }
  rewrite E. cbv beta iota. rewrite (IH _ Hos). reflexivity.
Qed.

(** All records: the loop succeeds exactly when every record is encoded and
    the operating system takes every text. *)
Lemma write_records_ok os cfg records (fs fs' : files) :
  write_records json_dump os cfg records fs = (fs', Ok tt) <->
  exists texts,
    Forall2 (encoded json_dump) records texts /\
    os_allows os (combine (map (path_of cfg) records) texts) fs /\
    fs' = apply_writes (combine (map (path_of cfg) records) texts) fs.
Proof.
  split.
  - revert fs. induction records as [|[name res] records IH]; intros fs.
    + intros [= <-]. exists []. split; [constructor|]. split; [exact I|reflexivity].
    + cbn [write_records]. unfold io_bind at 1 2, io_lift.
      destruct res as [data|e]; [|discriminate].
      destruct (write_json json_dump os (out_path cfg name) data fs)
        as [fs1 [[]|e]] eqn:E; [|discriminate].
      apply write_json_ok in E as (text & Hdump & Hopen & Hwrite & ->).
      intros H. destruct (IH _ H) as (texts & HF & Hos & ->).
      exists (text :: texts). split; [|split].
      * constructor; [|exact HF]. exists data. auto.
      * cbn. auto.
      * reflexivity.
  - intros (texts & HF & Hos & ->).
    rewrite <- (app_nil_r records) at 1.
    rewrite (write_records_done os cfg records texts [] fs HF Hos). reflexivity.
Qed.

Lemma encoded_paths cfg done texts :
  Forall2 (encoded json_dump) done texts ->
  map fst (combine (map (path_of cfg) done) texts) = map (path_of cfg) done.
Proof.
  intros H. rewrite map_fst_combine_firstn.
  rewrite <- (Forall2_length _ _ _ H), <- (length_map (path_of cfg) done).
  apply firstn_all.
Qed.

Lemma export_records_paths cfg combined_data report :
  map (path_of cfg) (export_records pd cfg combined_data report)
  = map (out_path cfg) output_files.
Proof. reflexivity. Qed.

(** The steps before the writes succeed exactly when each of them does. *)
Lemma upstream_ok cfg combined_data report :
  before_writing cfg = Ok (combined_data, report) <->
  exists loaded calc,
    load_and_process_data (DATA_PATH cfg) = Ok loaded /\
    combined_dataset pd cfg (fst loaded) = Ok combined_data /\
    new_BusinessMetricsCalculator combined_data = Ok calc /\
    generate_comprehensive_report calc (ANALYSIS_YEAR cfg) (COMPARISON_YEAR cfg)
    = Ok report.
Proof.
  unfold upstream. split.
  - destruct (load_and_process_data (DATA_PATH cfg)) as [loaded|] eqn:Hl;
      cbn [result_bind]; [|discriminate].
    destruct (combined_dataset pd cfg (fst loaded)) as [combined|] eqn:Hc;
      cbn [result_bind]; [|discriminate].
    destruct (new_BusinessMetricsCalculator combined) as [calc|] eqn:Hk;
      cbn [result_bind]; [|discriminate].
    destruct (generate_comprehensive_report calc _ _) as [r|] eqn:Hr;
      cbn [result_bind]; [|discriminate].
    intros [= <- <-]. exists loaded, calc. auto.
  - intros (loaded & calc & -> & Hc & Hk & Hr). cbn [result_bind].
    rewrite Hc. cbn [result_bind]. rewrite Hk. cbn [result_bind].
    rewrite Hr. reflexivity.
Qed.

(** The straight-line code of lines 45-179: the steps before the writes,
    the directory, the loop over the records, the closing report. *)
Lemma export_data_loop os cfg (fs : files) :
  run os cfg fs
  = match before_writing cfg with
    | Ok (combined_data, report) =>
        match mkdir_error os (OUTPUT_DIR cfg) fs with
        | Some e => (fs, Raise e)
        | None =>
            match write_records json_dump os cfg
                    (export_records pd cfg combined_data report) fs with
            | (fs', Ok _) => io_check (os_listing os (OUTPUT_DIR cfg)) fs'
            | (fs', Raise e) => (fs', Raise e)
            end
        end
    | Raise e => (fs, Raise e)
    end.
Proof.
  unfold export_data, upstream, io_bind, io_lift.
  destruct (load_and_process_data (DATA_PATH cfg)) as [loaded|];
    cbn [result_bind]; [|reflexivity].
  destruct (combined_dataset pd cfg (fst loaded)) as [combined|];
    cbn [result_bind]; [|reflexivity].
  destruct (new_BusinessMetricsCalculator combined) as [calc|];
    cbn [result_bind]; [|reflexivity].
  destruct (generate_comprehensive_report calc _ _) as [report|];
    cbn [result_bind]; [|reflexivity].
  unfold io_check at 1.
  destruct (mkdir_error os (OUTPUT_DIR cfg) fs); [reflexivity|].
  cbn [export_records write_records]. unfold io_bind, io_lift.
  repeat match goal with
         | |- context [match ?r with Ok _ => _ | Raise _ => _ end] =>
             destruct r; [|reflexivity]
         | |- context [write_json json_dump os ?p ?d ?f] =>
             destruct (write_json json_dump os p d f) as [? [[]|?]];
             [|reflexivity]
         end.
  reflexivity.
Qed.

(** A run succeeds exactly when the steps before the writes succeed, the
    directory can be made, every record is produced, encoded and written,
    and the closing report succeeds; the files are then the files from
    before the run with the eight texts written over them. *)
Lemma export_data_ok os cfg (fs fs' : files) :
  run os cfg fs = (fs', Ok tt) <->
  exists combined_data report texts,
    before_writing cfg = Ok (combined_data, report) /\
    mkdir_error os (OUTPUT_DIR cfg) fs = None /\
    Forall2 (encoded json_dump) (export_records pd cfg combined_data report) texts /\
    os_allows os
      (combine (map (path_of cfg) (export_records pd cfg combined_data report)) texts)
      fs /\
    fs' = apply_writes
            (combine (map (path_of cfg) (export_records pd cfg combined_data report))
                     texts) fs /\
    os_listing os (OUTPUT_DIR cfg) fs' = None.
Proof.
  rewrite export_data_loop. split.
  - destruct (before_writing cfg) as [[combined report]|]; [|discriminate].
    destruct (mkdir_error os (OUTPUT_DIR cfg) fs); [discriminate|].
    remember (export_records pd cfg combined report) as records eqn:Hrec.
    destruct (write_records json_dump os cfg records fs) as [fs1 [[]|e]] eqn:E;
      [|discriminate].
    unfold io_check.
    destruct (os_listing os (OUTPUT_DIR cfg) fs1) eqn:Hlist; [discriminate|].
    intros [= <-].
    apply write_records_ok in E as (texts & HF & Hos & ->).
    exists combined, report, texts. subst records. auto 10.
  - intros (combined & report & texts & -> & -> & HF & Hos & -> & Hlist).
    assert (E : write_records json_dump os cfg
                  (export_records pd cfg combined report) fs
                = (apply_writes
                     (combine (map (path_of cfg) (export_records pd cfg combined report))
                              texts) fs, Ok tt)).
    { apply write_records_ok. exists texts. auto. }
    rewrite E. unfold io_check. now rewrite Hlist.
Qed.

(** After a successful run, each of the eight files holds the text that the
    encoder made of its normalized export record. *)
Lemma export_data_success os cfg (fs fs' : files) :
  run os cfg fs = (fs', Ok tt) ->
  exists loaded combined_data calc report,
    load_and_process_data (DATA_PATH cfg) = Ok loaded /\
    combined_dataset pd cfg (fst loaded) = Ok combined_data /\
    new_BusinessMetricsCalculator combined_data = Ok calc /\
    generate_comprehensive_report calc (ANALYSIS_YEAR cfg) (COMPARISON_YEAR cfg)
    = Ok report /\
    forall name res,
      In (name, res) (export_records pd cfg combined_data report) ->
      exists out text,
        res = Ok out /\
        json_dump (to_python_types out) = Dumped text /\
        fs' !! out_path cfg name = Some text.
Proof.
  intros Hrun.
  apply export_data_ok in Hrun
    as (combined & report & texts & Hup & _ & HF & _ & -> & _).
  apply upstream_ok in Hup as (loaded & calc & Hl & Hc & Hk & Hr).
  exists loaded, combined, calc, report.
  do 4 (split; [assumption|]).
  remember (export_records pd cfg combined report) as records eqn:Hrec.
  intros name res Hin.
  apply In_nth_error in Hin as [i Hi].
  destruct (Forall2_nth _ _ _ i (name, res) HF Hi) as (text & Ht & Henc).
  destruct Henc as (out & Hres & Hdump). cbn [snd] in Hres.
  exists out, text. split; [exact Hres|]. split; [exact Hdump|].
  destruct (lookup_after_writes (combine (map (path_of cfg) records) texts) fs)
    as [Hin' _].
  { rewrite (encoded_paths cfg records texts HF), Hrec, export_records_paths.
    exact (NoDup_paths cfg _ NoDup_output_files). }
  apply Hin'. apply (in_combine_nth _ _ i); [|exact Ht].
  now rewrite nth_error_map, Hi.
Qed.

End Runs.

(** C8: two runs with the same configuration and the same encoder, whose
    loaders and calculators give the same combined dataset and the same
    report, from any two states of the files and under any two behaviours of
    the operating system: when both succeed, every one of the eight files
    exists after each and has the same content in both.  In particular a
    second run after the first leaves the eight files as the first left
    them. *)
Theorem export_data_deterministic load1 new1 load2 new2 json_dump pd os1 os2 cfg
  (fs1 fs2 fs1' fs2' : files)
  (Hsame : upstream load1 new1 pd cfg = upstream load2 new2 pd cfg)
  (Hrun1 : export_data load1 new1 json_dump os1 pd cfg fs1 = (fs1', Ok tt))
  (Hrun2 : export_data load2 new2 json_dump os2 pd cfg fs2 = (fs2', Ok tt)) :
  forall name, In name output_files ->
    exists text,
      fs1' !! out_path cfg name = Some text /\
      fs2' !! out_path cfg name = Some text.
Proof.
  intros name Hname.
  destruct (export_data_success _ _ _ _ _ _ _ _ Hrun1)
    as (loaded & combined & calc & report & Hl & Hc & Hk & Hr & Hfiles1).
  destruct (export_data_success _ _ _ _ _ _ _ _ Hrun2)
    as (loaded2 & combined2 & calc2 & report2 & Hl2 & Hc2 & Hk2 & Hr2 & Hfiles2).
  assert (Hup1 : upstream load1 new1 pd cfg = Ok (combined, report))
    by (apply upstream_ok; exists loaded, calc; auto).
  assert (Hup2 : upstream load2 new2 pd cfg = Ok (combined2, report2))
    by (apply upstream_ok; exists loaded2, calc2; auto).
  rewrite Hsame, Hup2 in Hup1. injection Hup1 as -> ->.
  rewrite <- (export_records_names pd cfg combined report) in Hname.
  apply in_map_iff in Hname as [[name' res] [Hn Hin]]. cbn [fst] in Hn. subst name'.
  destruct (Hfiles1 name res Hin) as (out & text & Hres & Hdump & Hfile1).
  destruct (Hfiles2 name res Hin) as (out2 & text2 & Hres2 & Hdump2 & Hfile2).
  rewrite Hres in Hres2. injection Hres2 as <-.
  rewrite Hdump in Hdump2. injection Hdump2 as <-.
  exists text. split; assumption.
Qed.

Lemma export_data_deterministic_witness :
  exists text,
    fst (export_data example_load empty_calculator constant_dump reliable_os
                     example_pandas config_2023 ∅)
      !! out_path config_2023 "reviews.json" = Some text /\
    fst (export_data renamed_load empty_calculator constant_dump
                     (refusing_os "elsewhere") example_pandas config_2023
                     {["EDA_Refactored/data/reviews.json" := "old"]})
      !! out_path config_2023 "reviews.json" = Some text.
Proof.
  refine (export_data_deterministic example_load empty_calculator
            renamed_load empty_calculator constant_dump example_pandas
            reliable_os (refusing_os "elsewhere") config_2023
            ∅ {["EDA_Refactored/data/reviews.json" := "old"]}
            (fst (export_data example_load empty_calculator constant_dump
                              reliable_os example_pandas config_2023 ∅))
            (fst (export_data renamed_load empty_calculator constant_dump
                              (refusing_os "elsewhere") example_pandas config_2023
                              {["EDA_Refactored/data/reviews.json" := "old"]}))
            _ _ _ "reviews.json" _).
  - reflexivity.
  - vm_compute. reflexivity.
  - vm_compute. reflexivity.
  - cbn. tauto.
Defined.

(** ** Serializable records *)

Lemma forallb_map_ext {A B} (f : A -> B) (p : B -> bool) (q : A -> bool) l :
  Forall (fun a => q a = true -> p (f a) = true) l ->
  forallb q l = true -> forallb p (map f l) = true.
Proof.
  induction 1 as [|a l Ha _ IH]; simpl; [reflexivity|].
  intros H. apply andb_prop in H as [H1 H2]. now rewrite Ha, IH.
Qed.

(** The normalizer leaves a serializable value as it is. *)
Lemma to_python_types_json keyok v :
  json_like keyok v = true -> to_python_types v = v.
Proof.
  induction v as [| | | | |l IH|d IH| | |shape data|shape items IH| | |i c rows IH
                 |i vals IH|tag] using value_ind;
    simpl; try reflexivity; try discriminate; intros H; f_equal.
  - induction IH as [|x l Hx _ IHl]; [reflexivity|].
    simpl in H. apply andb_prop in H as [H1 H2]. simpl.
    now rewrite Hx, IHl.
  - induction IH as [|[k x] d Hx _ IHd]; [reflexivity|].
    simpl in H. apply andb_prop in H as [H1 H2].
    apply andb_prop in H1 as [_ H1]. simpl in *.
    now rewrite Hx, IHd.
Qed.

Lemma forallb_firstn {A} (p : A -> bool) n l :
  forallb p l = true -> forallb p (firstn n l) = true.
Proof.
  revert n. induction l as [|a l IH]; intros [|n]; simpl; auto.
  intros H. apply andb_prop in H as [H1 H2]. now rewrite H1, IH.
Qed.

Lemma forallb_skipn {A} (p : A -> bool) n l :
  forallb p l = true -> forallb p (skipn n l) = true.
Proof.
  revert n. induction l as [|a l IH]; intros [|n]; simpl; auto.
  intros H. apply andb_prop in H as [H1 H2]. now apply IH.
Qed.

Lemma forallb_chunks {A} (p : A -> bool) n k l :
  forallb p l = true -> Forall (fun c => forallb p c = true) (chunks n k l).
Proof.
  revert l. induction n as [|n IH]; intros l H; simpl; constructor.
  - now apply forallb_firstn.
  - apply IH. now apply forallb_skipn.
Qed.

(** Nesting serializable items along a shape gives a serializable value. *)
Lemma nest_json keyok shape xs :
  forallb (json_like keyok) xs = true -> json_like keyok (nest shape xs) = true.
Proof.
  revert xs. induction shape as [|n rest IH]; intros xs H.
  - destruct xs as [|x xs]; [reflexivity|].
    simpl in *. now apply andb_prop in H as [H _].
  - cbn [nest json_like]. apply forallb_forall. intros v Hv.
    apply in_map_iff in Hv as [c [<- Hc]]. apply IH.
    pose proof (forallb_chunks (json_like keyok) n (shape_size rest) xs H) as Hall.
    rewrite List.Forall_forall in Hall. now apply Hall.
Qed.

Lemma np_natives_json keyok data :
  forallb (json_like keyok) (np_natives data) = true.
Proof.
  destruct data as [items|items|items|items]; simpl;
    apply forallb_forall; intros v Hv;
    apply in_map_iff in Hv as [x [<- _]]; reflexivity.
Qed.

Lemma box_native_json c :
  cell_ok c = true -> json_serializable (box_native c) = true.
Proof.
  unfold cell_ok. intros H. apply orb_prop in H as [H|H].
  - destruct c; simpl in *; try reflexivity; discriminate.
  - destruct c; simpl in *; try reflexivity; try discriminate; exact H.
Qed.

Lemma forallb_combine (pk : key -> bool) (pv : value -> bool) ks vs :
  forallb pk ks = true -> forallb pv vs = true ->
  forallb (entry_ok pk pv) (combine ks vs) = true.
Proof.
  revert vs. induction ks as [|k ks IH]; intros [|v vs]; simpl; try reflexivity.
  intros Hk Hv. apply andb_prop in Hk as [Hk1 Hk2].
  apply andb_prop in Hv as [Hv1 Hv2].
  unfold entry_ok at 1. simpl. now rewrite Hk1, Hv1, IH.
Qed.

Lemma forallb_dict_set pk pv d k v :
  forallb (entry_ok pk pv) d = true -> pk k = true -> pv v = true ->
  forallb (entry_ok pk pv) (dict_set d k v) = true.
Proof.
  intros Hd Hk Hv. induction d as [|[k0 v0] d IH]; simpl.
  - unfold entry_ok. simpl. now rewrite Hk, Hv.
  - simpl in Hd. apply andb_prop in Hd as [H0 Hd].
    unfold entry_ok in H0. simpl in H0. apply andb_prop in H0 as [Hk0 Hv0].
    destruct (key_eqb k0 k); simpl; unfold entry_ok at 1; simpl.
    + now rewrite Hk0, Hv, Hd.
    + now rewrite Hk0, Hv0, IH.
Qed.

Lemma forallb_dict_of_pairs pk pv l :
  forallb (entry_ok pk pv) l = true ->
  forallb (entry_ok pk pv) (dict_of_pairs l) = true.
Proof.
  unfold dict_of_pairs.
  assert (G : forall acc, forallb (entry_ok pk pv) acc = true ->
                forallb (entry_ok pk pv) l = true ->
                forallb (entry_ok pk pv)
                  (fold_left (fun d kv => dict_set d (fst kv) (snd kv)) l acc) = true).
  { induction l as [|[k v] l IH]; intros acc Hacc Hl; [exact Hacc|].
    simpl in Hl. apply andb_prop in Hl as [H0 Hl].
    unfold entry_ok in H0. simpl in H0. apply andb_prop in H0 as [Hk Hv].
    simpl. apply IH; [|exact Hl]. now apply forallb_dict_set. }
  intros H. now apply G.
Qed.


Lemma labelled_cells_json labels cells :
  forallb is_str_key labels = true -> forallb cell_ok cells = true ->
  forallb (entry_ok is_str_key json_serializable)
          (dict_of_pairs (combine labels (map box_native cells))) = true.
Proof.
  intros Hl Hc. apply forallb_dict_of_pairs. apply forallb_combine; [exact Hl|].
  eapply forallb_map_ext; [|exact Hc].
  apply List.Forall_forall. intros c _. apply box_native_json.
Qed.

(** A normalizable value is serializable once normalized. *)
Lemma normalizable_json v :
  normalizable v = true -> json_serializable (to_python_types v) = true.
Proof.
  unfold json_serializable.
  induction v as [| | | | |l IH|d IH| | |shape data|shape items IH| | |i c rows IH
                 |i vals IH|tag] using value_ind;
    simpl; try reflexivity; try discriminate; intros H.
  - eapply forallb_map_ext; [|exact H]. exact IH.
  - eapply forallb_map_ext; [|exact H].
    eapply List.Forall_impl; [|exact IH]. intros [k x] Hx Hq. simpl in *.
    apply andb_prop in Hq as [Hk Hq]. now rewrite Hk, Hx.
  - apply nest_json, np_natives_json.
  - now apply nest_json.
  - apply andb_prop in H as [Hc Hr]. unfold df_to_dict_records.
    rewrite map_map. eapply forallb_map_ext; [|exact Hr].
    apply List.Forall_forall. intros row _ Hrow. simpl.
    now apply labelled_cells_json.
  - apply andb_prop in H as [Hi Hv]. now apply labelled_cells_json.
Qed.






















(** ** What a successful run leaves in the files *)

Section SuccessfulRun.

Variable load_and_process_data : string -> result (EcommerceDataLoader * value).
Variable new_BusinessMetricsCalculator : DataFrame -> result BusinessMetricsCalculator.
Variable json_dump : value -> dump_outcome.
Variable os : OS.
Variable pd : Pandas.

(** C9: when monthly_trends has no to_dict attribute, it is the revenue
    record as it is: a plain list stays that list and an absent monthly_trends
    gives the empty list, with no year entry, no renamed key and no default
    added; a successful run leaves in revenue.json the encoder's text of that
    value, normalized. *)
Theorem monthly_data_passthrough cfg r :
  (forall mt,
      dict_get r (KStr "monthly_trends") = Some mt ->
      hasattr_to_dict mt = false ->
      monthly_data cfg (VDict r) = Ok mt) /\
  (forall l,
      dict_get r (KStr "monthly_trends") = Some (VList l) ->
      monthly_data cfg (VDict r) = Ok (VList l) /\
      to_python_types (VList l) = VList (map to_python_types l)) /\
  (dict_get r (KStr "monthly_trends") = None ->
   monthly_data cfg (VDict r) = Ok (VList []) /\
   to_python_types (VList []) = VList []) /\
  (forall (fs fs' : files) mt,
      dict_get r (KStr "monthly_trends") = Some mt ->
      hasattr_to_dict mt = false ->
      (forall loaded combined_data calc,
          load_and_process_data (DATA_PATH cfg) = Ok loaded ->
          combined_dataset pd cfg (fst loaded) = Ok combined_data ->
          new_BusinessMetricsCalculator combined_data = Ok calc ->
          generate_comprehensive_report calc (ANALYSIS_YEAR cfg)
                                        (COMPARISON_YEAR cfg) = Ok (VDict r)) ->
      export_data load_and_process_data new_BusinessMetricsCalculator json_dump
                  os pd cfg fs = (fs', Ok tt) ->
      exists text,
        json_dump (to_python_types mt) = Dumped text /\
        fs' !! out_path cfg "revenue.json" = Some text).
Proof.
  split; [|split; [|split]].
  - intros mt Hmt Hattr. apply monthly_data_not_table; [|exact Hattr].
    unfold py_get. now rewrite Hmt.
  - intros l Hmt. split; [|reflexivity].
    apply monthly_data_not_table; [|reflexivity]. unfold py_get. now rewrite Hmt.
  - intros Hmt. split; [|reflexivity].
    apply monthly_data_not_table; [|reflexivity]. unfold py_get. now rewrite Hmt.
  - intros fs fs' mt Hmt Hattr Hreport Hrun.
    destruct (export_data_success _ _ _ _ _ _ _ _ Hrun)
      as (loaded & combined & calc & report & Hl & Hc & Hk & Hr & Hfiles).
    rewrite (Hreport loaded combined calc Hl Hc Hk) in Hr. injection Hr as <-.
    destruct (Hfiles "revenue.json" (monthly_data cfg (VDict r)))
      as (out & text & Hout & Hdump & Hfile).
    { cbn. right. left. reflexivity. }
    rewrite (monthly_data_not_table cfg (VDict r) mt) in Hout.
    + injection Hout as <-. exists text. split; assumption.
    + unfold py_get. now rewrite Hmt.
    + exact Hattr.
Qed.

End SuccessfulRun.

Lemma monthly_data_passthrough_witness :
  monthly_data config_2023 plain_monthly_report
  = Ok (VList [VDict [(KStr "month", VNpInt 1); (KStr "sales", VInt 9)]]) /\
  to_python_types (VList [VDict [(KStr "month", VNpInt 1); (KStr "sales", VInt 9)]])
  = VList [VDict [(KStr "month", VInt 1); (KStr "sales", VInt 9)]] /\
  exists text,
    constant_dump
      (to_python_types (VList [VDict [(KStr "month", VNpInt 1); (KStr "sales", VInt 9)]]))
    = Dumped text /\
    fst (export_data example_load plain_monthly_calculator constant_dump
                     reliable_os example_pandas config_2023 ∅)
      !! out_path config_2023 "revenue.json" = Some text.
Proof.
  pose proof (monthly_data_passthrough example_load plain_monthly_calculator
                constant_dump reliable_os example_pandas config_2023
                [(KStr "monthly_trends",
                  VList [VDict [(KStr "month", VNpInt 1); (KStr "sales", VInt 9)]])])
    as [H1 [_ [_ H4]]].
  split; [|split; [reflexivity|]].
  - apply H1; reflexivity.
  - apply (H4 ∅ _ (VList [VDict [(KStr "month", VNpInt 1); (KStr "sales", VInt 9)]])).
    + reflexivity.
    + reflexivity.
    + intros loaded combined calc _ _ [= <-]. reflexivity.
    + vm_compute. reflexivity.
Defined.


(** * Further properties of the normalizer *)

(** X1: a value that is serializable already passes through the normalizer
    unchanged, whatever its keys; and normalizing a normalizable value twice
    gives the same as normalizing it once. *)
Theorem to_python_types_fixed_points :
  (forall keyok v, json_like keyok v = true -> to_python_types v = v) /\
  (forall v, normalizable v = true ->
             to_python_types (to_python_types v) = to_python_types v).
Proof.
  split.
  - exact to_python_types_json.
  - intros v H. apply (to_python_types_json is_str_key).
    now apply normalizable_json.
Qed.

Lemma to_python_types_fixed_points_witness :
  to_python_types (VDict [(KInt 3, VList [VInt 1; VStr "x"])])
  = VDict [(KInt 3, VList [VInt 1; VStr "x"])] /\
  to_python_types
    (to_python_types (VList [VNpInt 4; VNdArray [1%nat] (NpFloats [float_2_5])]))
  = to_python_types (VList [VNpInt 4; VNdArray [1%nat] (NpFloats [float_2_5])]).
Proof.
  split.
  - apply (proj1 to_python_types_fixed_points (fun _ => true)). reflexivity.
  - apply (proj2 to_python_types_fixed_points). reflexivity.
Defined.

Lemma nest_one_axis xs :
  nest [length xs] xs = VList xs.
Proof.
  assert (E : map (nest []) (chunks (length xs) 1 xs) = xs).
  { induction xs as [|x xs IH]; [reflexivity|].
    cbn [length chunks map]. change (skipn 1 (x :: xs)) with xs.
    rewrite IH. reflexivity. }
  change (nest [length xs] xs) with (VList (map (nest []) (chunks (length xs) 1 xs))).
  now rewrite E.
Qed.

(** X2: an array of integer, floating, boolean or string dtype is normalized
    to nested lists of native scalars, serializable at every depth; with one
    axis, to the list of its items in their order.  An array of object
    dtype with one axis is normalized to the list of the objects it holds,
    as they are: the two rows of a ragged array stay arrays. *)
Theorem to_python_types_array :
  (forall shape data,
      json_serializable (to_python_types (VNdArray shape data)) = true) /\
  (forall data,
      to_python_types (VNdArray [length (np_natives data)] data)
      = VList (np_natives data)) /\
  (forall items,
      to_python_types (VObjArray [length items] items) = VList items) /\
  to_python_types (VNdArray [2; 2]%nat (NpInts [1; 2; 3; 4]))
  = VList [VList [VInt 1; VInt 2]; VList [VInt 3; VInt 4]] /\
  to_python_types
    (VObjArray [2%nat] [VNdArray [2%nat] (NpInts [1; 2]); VNdArray [1%nat] (NpInts [3])])
  = VList [VNdArray [2%nat] (NpInts [1; 2]); VNdArray [1%nat] (NpInts [3])].
Proof.
  split; [|split; [|split; [|split; reflexivity]]].
  - intros shape data. apply (normalizable_json (VNdArray shape data)). reflexivity.
  - intros data. apply nest_one_axis.
  - intros items. apply nest_one_axis.
Qed.

Lemma label_pos_distinct labels i k :
  keys_distinct labels = true ->
  nth_error labels i = Some k ->
  key_eqb k k = true ->
  label_pos labels k = Some i.
Proof.
  revert i. induction labels as [|l labels IH]; intros [|i]; simpl; try discriminate.
  - intros _ [= ->] Hk. now rewrite Hk.
  - intros H Hi Hk. apply andb_prop in H as [H0 H].
    rewrite (IH i H Hi Hk). simpl.
    destruct (key_eqb l k) eqn:E; [|reflexivity]. exfalso.
    apply negb_true_iff in H0.
    assert (E' : existsb (key_eqb l) labels = true).
    { apply existsb_exists. exists k. split; [|exact E].
      eapply nth_error_In; eauto. }
    congruence.
Qed.

(** X3: a series with pairwise different labels is normalized to the mapping
    with those labels as keys, in index order, and a label that equals itself
    (anything but NaN) leads to the native form of its value. *)
Theorem to_python_types_series index vals
  (Hdistinct : keys_distinct index = true)
  (Hlen : length vals = length index) :
  exists d,
    to_python_types (VSeries index vals) = VDict d /\
    dict_keys d = index /\
    forall i k v,
      nth_error index i = Some k -> key_eqb k k = true ->
      nth_error vals i = Some v ->
      dict_get d k = Some (box_native v).
Proof.
  exists (combine index (map box_native vals)).
  assert (E : series_to_dict index vals = combine index (map box_native vals)).
  { unfold series_to_dict. apply dict_of_pairs_distinct.
    rewrite map_fst_combine_firstn. now apply keys_distinct_firstn. }
  split; [simpl; now rewrite E|]. split.
  - unfold dict_keys. rewrite map_fst_combine_firstn, length_map, Hlen.
    apply firstn_all.
  - intros i k v Hi Hk Hv. rewrite dict_get_combine.
    rewrite (label_pos_distinct index i k Hdistinct Hi Hk).
    now rewrite nth_error_map, Hv.
Qed.

Lemma to_python_types_series_witness :
  exists d,
    to_python_types (VSeries [KInt 5; KStr "n"] [VNpInt 2; VNpFloat float_2_5])
    = VDict d /\
    dict_get d (KInt 5) = Some (VInt 2).
Proof.
  destruct (to_python_types_series [KInt 5; KStr "n"] [VNpInt 2; VNpFloat float_2_5]
              eq_refl eq_refl) as [d [H [_ Hget]]].
  exists d. split; [exact H|].
  apply (Hget 0%nat (KInt 5) (VNpInt 2)); reflexivity.
Defined.

(** * Further properties of the export records *)

Lemma py_get_has_get obj name default :
  has_get obj = true -> exists v, py_get obj name default = Ok v.
Proof.
  destruct obj; try discriminate; intros _; eexists; reflexivity.
Qed.

Lemma py_get_no_get obj name default :
  has_get obj = false -> py_get obj name default = Raise (AttributeError "get").
Proof. destruct obj; try discriminate; reflexivity. Qed.

(** X4: whatever the report holds, a categories record that is produced is a
    list of at most 15 entries; a plain list of at most 15 entries is kept
    whole. *)
Theorem categories_data_at_most_15 report :
  (forall out, categories_data report = Ok out ->
               exists l, out = VList l /\ (length l <= 15)%nat) /\
  (forall r pp l,
      report = VDict r ->
      dict_get r (KStr "product_performance") = Some (VDict pp) ->
      dict_get pp (KStr "top_categories") = Some (VList l) ->
      (length l <= 15)%nat ->
      categories_data report = Ok (VList l)).
Proof.
  split.
  - intros out. unfold categories_data.
    destruct (py_get report "product_performance" (VDict [])) as [pp|];
      cbn [result_bind]; [|discriminate].
    destruct (py_get pp "top_categories" (VList [])) as [top|];
      cbn [result_bind]; [|discriminate].
    destruct top;
      cbn [hasattr_to_dict call_head call_to_dict_records result_bind list_prefix
           VTable df_head df_index df_columns df_rows];
      try discriminate;
      intros [= <-]; eexists; (split; [reflexivity|]);
      try (cbn; lia).
    + apply firstn_le_length.
    + unfold df_to_dict_records. rewrite !length_map. apply firstn_le_length.
  - intros r pp l -> Hpp Htop Hlen. unfold categories_data, py_get.
    rewrite Hpp. cbn [result_bind]. rewrite Htop. cbn.
    now rewrite firstn_all2.
Qed.

Lemma categories_data_at_most_15_witness :
  exists l,
    VList (firstn 15 twenty_categories) = VList l /\ (length l <= 15)%nat.
Proof.
  apply (proj1 (categories_data_at_most_15
                  (categories_report (VList twenty_categories)))).
  reflexivity.
Defined.

(** X5: a top_categories value that has no to_dict attribute and is not a
    list (a mapping, None, a number, an array) gives the empty categories
    record, with no error; so does a report without product_performance or
    without top_categories. *)
Theorem categories_data_fallback r :
  (forall pp top,
      dict_get r (KStr "product_performance") = Some (VDict pp) ->
      dict_get pp (KStr "top_categories") = Some top ->
      hasattr_to_dict top = false ->
      (forall l, top <> VList l) ->
      categories_data (VDict r) = Ok (VList [])) /\
  (dict_get r (KStr "product_performance") = None ->
   categories_data (VDict r) = Ok (VList [])) /\
  (forall pp,
      dict_get r (KStr "product_performance") = Some (VDict pp) ->
      dict_get pp (KStr "top_categories") = None ->
      categories_data (VDict r) = Ok (VList [])).
Proof.
  unfold categories_data, py_get. split; [|split].
  - intros pp top Hpp Htop Hattr Hlist. rewrite Hpp. cbn [result_bind].
    rewrite Htop. cbn [result_bind]. rewrite Hattr.
    destruct top; try reflexivity. now contradiction (Hlist l).
  - intros Hpp. rewrite Hpp. reflexivity.
  - intros pp Hpp Htop. rewrite Hpp. cbn [result_bind]. rewrite Htop. reflexivity.
Qed.

Lemma categories_data_fallback_witness :
  categories_data (categories_report (VDict [(KStr "toys", VInt 1)]))
  = Ok (VList []).
Proof.
  apply (proj1 (categories_data_fallback
                  [(KStr "product_performance",
                    VDict [(KStr "top_categories", VDict [(KStr "toys", VInt 1)])])])
               [(KStr "top_categories", VDict [(KStr "toys", VInt 1)])]
               (VDict [(KStr "toys", VInt 1)])); try reflexivity.
  intros l. discriminate.
Defined.

(** X6: a series passes the to_dict test of lines 96 and 117 but its to_dict
    does not take 'records': a monthly_trends or top_categories that is a
    series makes the record fail with a TypeError. *)
Theorem series_raises_type_error cfg r index vals :
  (dict_get r (KStr "monthly_trends") = Some (VSeries index vals) ->
   monthly_data cfg (VDict r)
   = Raise (TypeError "unsupported type: <class 'str'>")) /\
  (forall pp,
      dict_get r (KStr "product_performance") = Some (VDict pp) ->
      dict_get pp (KStr "top_categories") = Some (VSeries index vals) ->
      categories_data (VDict r)
      = Raise (TypeError "unsupported type: <class 'str'>")).
Proof.
  split.
  - intros H. unfold monthly_data, py_get. now rewrite H.
  - intros pp Hpp Htop. unfold categories_data, py_get.
    rewrite Hpp. cbn [result_bind]. now rewrite Htop.
Qed.

Lemma series_raises_type_error_witness :
  monthly_data config_2023
    (VDict [(KStr "monthly_trends", VSeries [KInt 1] [VNpInt 100])])
  = Raise (TypeError "unsupported type: <class 'str'>").
Proof.
  apply (proj1 (series_raises_type_error config_2023
                  [(KStr "monthly_trends", VSeries [KInt 1] [VNpInt 100])]
                  [KInt 1] [VNpInt 100])).
  reflexivity.
Defined.

(** X7: a report on which get does not exist (None, a list, a number) makes
    every one of the eight records fail with an AttributeError; and a
    revenue_metrics group on which get does not exist makes the KPI record
    fail the same way. *)
Theorem records_need_get pd cfg t :
  (forall report name res,
      has_get report = false ->
      In (name, res) (export_records pd cfg t report) ->
      res = Raise (AttributeError "get")) /\
  (forall r g,
      dict_get r (KStr "revenue_metrics") = Some g ->
      has_get g = false ->
      kpi_metrics (VDict r) = Raise (AttributeError "get")).
Proof.
  split.
  - intros report name res Hget Hin.
    pose proof (fun n d => py_get_no_get report n d Hget) as G.
    cbn [export_records In] in Hin.
    repeat (destruct Hin as [[= <- <-]|Hin]); try contradiction;
      unfold kpi_metrics, monthly_data, categories_data, reviews_export,
        geo_data, delivery_stats, payment_analysis, customer_segments;
      rewrite G; reflexivity.
  - intros r g Hg Hget. unfold kpi_metrics.
    assert (E : py_get (VDict r) "revenue_metrics" (VDict []) = Ok g)
      by (unfold py_get; now rewrite Hg).
    rewrite E. cbn [result_bind]. now rewrite py_get_no_get.
Qed.

Lemma records_need_get_witness :
  kpi_metrics (VDict [(KStr "revenue_metrics", VList [VInt 1])])
  = Raise (AttributeError "get") /\
  geo_data VNone = Raise (AttributeError "get").
Proof.
  split.
  - apply (proj2 (records_need_get example_pandas config_2023 five_reviews)
                 [(KStr "revenue_metrics", VList [VInt 1])] (VList [VInt 1]));
      reflexivity.
  - apply (proj1 (records_need_get example_pandas config_2023 five_reviews)
                 VNone "geo.json").
    + reflexivity.
    + cbn. do 4 right. left. reflexivity.
Defined.

Lemma label_positions_from_none i labels k :
  label_pos labels k = None -> label_positions_from i labels k = [].
Proof.
  revert i. induction labels as [|l labels IH]; intros i; [reflexivity|].
  simpl. destruct (key_eqb l k); [discriminate|].
  destruct (label_pos labels k); [discriminate|]. intros _. now apply IH.
Qed.

Lemma label_positions_none labels k :
  label_pos labels k = None -> label_positions labels k = [].
Proof. apply label_positions_from_none. Qed.

(** X8: when the combined dataset has no review_score column, the histogram
    fails with a KeyError, and so does the reviews record, whatever the
    report's customer_satisfaction group is. *)
Theorem reviews_need_review_score pd t
  (Hcol : label_pos (df_columns t) (KStr "review_score") = None) :
  score_counts pd t = Raise (KeyError "review_score") /\
  forall report,
    has_get report = true ->
    reviews_export pd t report = Raise (KeyError "review_score").
Proof.
  assert (E : score_counts pd t = Raise (KeyError "review_score"))
    by (unfold score_counts, df_getitem;
        now rewrite (label_positions_none _ _ Hcol)).
  split; [exact E|]. intros report Hget. unfold reviews_export.
  destruct (py_get_has_get report "customer_satisfaction" (VDict []) Hget) as [cs ->].
  cbn [result_bind]. now rewrite E.
Qed.

Lemma reviews_need_review_score_witness :
  reviews_export example_pandas (mkDataFrame [KInt 0] [KStr "order_id"] [[VStr "a"]])
                 satisfaction_report
  = Raise (KeyError "review_score").
Proof.
  apply (reviews_need_review_score example_pandas
           (mkDataFrame [KInt 0] [KStr "order_id"] [[VStr "a"]]) eq_refl);
    reflexivity.
Defined.

(** X9: with a comparison year, a dataset without a purchase_year column
    makes the combined dataset fail with a KeyError. *)
Theorem combined_dataset_needs_purchase_year pd cfg loader cy sales comparison all
  (Hcy : COMPARISON_YEAR cfg = Some cy)
  (Hnz : cy <> 0)
  (Hsales : create_sales_dataset loader (Some (ANALYSIS_YEAR cfg))
              (ANALYSIS_MONTH cfg) "delivered" = Ok sales)
  (Hcomp : create_sales_dataset loader (Some cy) (ANALYSIS_MONTH cfg) "delivered"
           = Ok comparison)
  (Hall : create_sales_dataset loader None (ANALYSIS_MONTH cfg) "delivered" = Ok all)
  (Hcol : label_pos (df_columns all) (KStr "purchase_year") = None) :
  combined_dataset pd cfg loader = Raise (KeyError "purchase_year").
Proof.
  unfold combined_dataset. rewrite Hsales, Hcy. cbn [result_bind truthy].
  destruct (Z.eqb_spec cy 0) as [|_]; [contradiction|]. cbn [negb].
  rewrite Hcomp. cbn [result_bind]. rewrite Hall. cbn [result_bind].
  unfold df_getitem. now rewrite (label_positions_none _ _ Hcol).
Qed.

Lemma combined_dataset_needs_purchase_year_witness :
  combined_dataset example_pandas config_2023
    (constant_loader (mkDataFrame [KInt 0] [KStr "order_id"] [[VStr "a"]]))
  = Raise (KeyError "purchase_year").
Proof.
  apply (combined_dataset_needs_purchase_year example_pandas config_2023
           (constant_loader (mkDataFrame [KInt 0] [KStr "order_id"] [[VStr "a"]]))
           2022
           (mkDataFrame [KInt 0] [KStr "order_id"] [[VStr "a"]])
           (mkDataFrame [KInt 0] [KStr "order_id"] [[VStr "a"]])
           (mkDataFrame [KInt 0] [KStr "order_id"] [[VStr "a"]]));
    try reflexivity. lia.
Defined.

(** X10: the dataset requested for the comparison year is never read: two
    loaders that differ only in what they return for that year give the same
    combined dataset; but if that request fails, the combined dataset fails
    with the same error. *)
Theorem comparison_data_unused pd cfg cy
  (Hcy : COMPARISON_YEAR cfg = Some cy) :
  (forall loader1 loader2 d1 d2,
      cy <> ANALYSIS_YEAR cfg ->
      (forall year month status,
          year <> Some cy ->
          create_sales_dataset loader1 year month status
          = create_sales_dataset loader2 year month status) ->
      create_sales_dataset loader1 (Some cy) (ANALYSIS_MONTH cfg) "delivered" = Ok d1 ->
      create_sales_dataset loader2 (Some cy) (ANALYSIS_MONTH cfg) "delivered" = Ok d2 ->
      combined_dataset pd cfg loader1 = combined_dataset pd cfg loader2) /\
  (forall loader sales e,
      cy <> 0 ->
      create_sales_dataset loader (Some (ANALYSIS_YEAR cfg)) (ANALYSIS_MONTH cfg)
                           "delivered" = Ok sales ->
      create_sales_dataset loader (Some cy) (ANALYSIS_MONTH cfg) "delivered"
      = Raise e ->
      combined_dataset pd cfg loader = Raise e).
Proof.
  split.
  - intros loader1 loader2 d1 d2 Hne Hsame H1 H2. unfold combined_dataset.
    rewrite (Hsame (Some (ANALYSIS_YEAR cfg))) by congruence.
    rewrite (Hsame None) by discriminate.
    rewrite Hcy, H1, H2.
    destruct (create_sales_dataset loader2 (Some (ANALYSIS_YEAR cfg)) _ _);
      cbn [result_bind]; [|reflexivity].
    destruct (truthy (Some cy)); reflexivity.
  - intros loader sales e Hnz Hs He. unfold combined_dataset.
    rewrite Hs, Hcy. cbn [result_bind truthy].
    destruct (Z.eqb_spec cy 0) as [|_]; [contradiction|]. cbn [negb].
    now rewrite He.
Qed.

Lemma comparison_data_unused_witness :
  combined_dataset example_pandas config_2023
    (special_year_loader 2022 (mkDataFrame [] [] []) five_reviews)
  = combined_dataset example_pandas config_2023
      (special_year_loader 2022 five_reviews five_reviews) /\
  combined_dataset example_pandas config_2023 (failing_for_year 2022 five_reviews)
  = Raise (UpstreamError "no data").
Proof.
  split.
  - apply (proj1 (comparison_data_unused example_pandas config_2023 2022 eq_refl)
                 (special_year_loader 2022 (mkDataFrame [] [] []) five_reviews)
                 (special_year_loader 2022 five_reviews five_reviews)
                 (mkDataFrame [] [] []) five_reviews).
    + cbn. lia.
    + intros [y|] month status Hy; [|reflexivity]. cbn.
      destruct (Z.eqb_spec y 2022); [congruence | reflexivity].
    + reflexivity.
    + reflexivity.
  - apply (proj2 (comparison_data_unused example_pandas config_2023 2022 eq_refl)
                 (failing_for_year 2022 five_reviews) five_reviews).
    + lia.
    + reflexivity.
    + reflexivity.
Defined.

(** ** Totals and order of the histogram *)

Lemma int_total_insert_desc kc s :
  int_total (tally_dict (insert_desc kc s)) = snd kc + int_total (tally_dict s).
Proof.
  induction s as [|x s IH]; simpl; [reflexivity|].
  destruct (snd x <=? snd kc); simpl; [reflexivity|]. rewrite IH. lia.
Qed.

Lemma int_total_sort_desc t :
  int_total (tally_dict (sort_desc t)) = int_total (tally_dict t).
Proof.
  induction t as [|a t IH]; simpl; [reflexivity|].
  now rewrite int_total_insert_desc, IH.
Qed.

Lemma int_total_tally_add t k :
  int_total (tally_dict (tally_add t k)) = int_total (tally_dict t) + 1.
Proof.
  induction t as [|[k0 c] t IH]; simpl; [reflexivity|].
  destruct (key_eqb k0 k); simpl; [lia|]. rewrite IH. lia.
Qed.

Lemma int_total_tally_fold ks acc :
  int_total (tally_dict (fold_left tally_add ks acc))
  = int_total (tally_dict acc) + Z.of_nat (length ks).
Proof.
  revert acc. induction ks as [|k ks IH]; intros acc; simpl length; simpl fold_left.
  - lia.
  - rewrite IH, int_total_tally_add. lia.
Qed.

Lemma result_map_length {A B} (f : A -> result B) l out :
  result_map f l = Ok out -> length out = length l.
Proof.
  revert out. induction l as [|a l IH]; intros out; simpl.
  - now intros [= <-].
  - destruct (f a); cbn [result_bind]; [|discriminate].
    destruct (result_map f l) as [bs|]; cbn [result_bind]; [|discriminate].
    intros [= <-]. simpl. now rewrite (IH bs eq_refl).
Qed.

(** X11: the counts of the histogram add up to the number of rows of the
    combined dataset that have a review score; no row is counted twice and
    none is lost. *)
Theorem score_counts_total pd t j ks
  (Hcol : label_positions (df_columns t) (KStr "review_score") = [j])
  (Hks : result_map cell_key
           (List.filter (fun c => negb (is_missing c)) (column_cells (df_rows t) j))
         = Ok ks) :
  exists counts,
    score_counts pd t = Ok counts /\
    int_total counts
    = Z.of_nat (length (List.filter (fun c => negb (is_missing c))
                                    (column_cells (df_rows t) j))).
Proof.
  exists (tally_dict (sort_desc (tally ks))).
  split; [now apply (score_counts_eq pd t j ks)|].
  rewrite int_total_sort_desc. unfold tally. rewrite int_total_tally_fold.
  simpl. now rewrite (result_map_length _ _ _ Hks).
Qed.

Lemma score_counts_total_witness :
  exists counts,
    score_counts example_pandas five_reviews = Ok counts /\ int_total counts = 4.
Proof.
  exact (score_counts_total example_pandas five_reviews 1%nat
           [KInt 5; KInt 5; KInt 4; KInt 3] eq_refl eq_refl).
Defined.

Lemma counts_descending_insert kc s :
  counts_descending (tally_dict s) = true ->
  counts_descending (tally_dict (insert_desc kc s)) = true.
Proof.
  induction s as [|[k c] s IH]; [reflexivity|].
  intros H. cbn [insert_desc snd].
  destruct (Z.leb_spec c (snd kc)) as [Hle|Hgt].
  - destruct kc as [k0 c0]. cbn [tally_dict map fst snd counts_descending] in *.
    apply andb_true_intro. split; [now apply Z.leb_le | exact H].
  - destruct s as [|[k1 c1] s].
    + destruct kc as [k0 c0]. cbn in *. rewrite andb_true_r. apply Z.leb_le. lia.
    + cbn [tally_dict map fst snd counts_descending] in H.
      apply andb_prop in H as [H1 H2].
      specialize (IH H2). cbn [insert_desc snd] in *.
      destruct (c1 <=? snd kc) eqn:E.
      * destruct kc as [k0 c0].
        cbn [tally_dict map fst snd counts_descending] in *.
        apply andb_true_intro. split; [apply Z.leb_le; lia | exact IH].
      * cbn [tally_dict map fst snd counts_descending] in *.
        apply andb_true_intro. split; [exact H1 | exact IH].
Qed.

Lemma counts_descending_sort t :
  counts_descending (tally_dict (sort_desc t)) = true.
Proof.
  induction t as [|a t IH]; [reflexivity|].
  simpl. now apply counts_descending_insert.
Qed.

(** X12: the histogram lists the scores by decreasing count, the order in
    which reviews.json shows them. *)
Theorem score_counts_descending pd t j ks
  (Hcol : label_positions (df_columns t) (KStr "review_score") = [j])
  (Hks : result_map cell_key
           (List.filter (fun c => negb (is_missing c)) (column_cells (df_rows t) j))
         = Ok ks) :
  exists counts, score_counts pd t = Ok counts /\ counts_descending counts = true.
Proof.
  exists (tally_dict (sort_desc (tally ks))).
  split; [now apply (score_counts_eq pd t j ks) | apply counts_descending_sort].
Qed.

Lemma score_counts_descending_witness :
  exists counts,
    score_counts example_pandas five_reviews = Ok counts /\
    counts_descending counts = true.
Proof.
  exact (score_counts_descending example_pandas five_reviews 1%nat
           [KInt 5; KInt 5; KInt 4; KInt 3] eq_refl eq_refl).
Defined.

Lemma filter_none {A} (p : A -> bool) l :
  forallb p l = true -> List.filter (fun a => negb (p a)) l = [].
Proof.
  induction l as [|a l IH]; simpl; [reflexivity|].
  intros H. apply andb_prop in H as [Ha H]. now rewrite Ha, IH.
Qed.

(** X13: when no row of the combined dataset has a review score (every cell
    of the column is missing, or the table has no rows), the histogram is the
    empty mapping and nothing is raised. *)
Theorem score_counts_all_missing pd t j
  (Hcol : label_positions (df_columns t) (KStr "review_score") = [j])
  (Hmissing : forallb is_missing (column_cells (df_rows t) j) = true) :
  score_counts pd t = Ok [].
Proof.
  apply (score_counts_eq pd t j [] Hcol).
  now rewrite filter_none.
Qed.

Lemma score_counts_all_missing_witness :
  score_counts example_pandas
    (mkDataFrame [KInt 0; KInt 1; KInt 2; KInt 3] [KStr "review_score"]
                 [[VNone]; [VNpFloat S754_nan]; [VNA]; [VNaT]])
  = Ok [].
Proof.
  apply (score_counts_all_missing example_pandas
           (mkDataFrame [KInt 0; KInt 1; KInt 2; KInt 3] [KStr "review_score"]
                        [[VNone]; [VNpFloat S754_nan]; [VNA]; [VNaT]]) 0%nat);
    reflexivity.
Defined.

(** * Further properties of a run *)

Section Failures.

Variable load_and_process_data : string -> result (EcommerceDataLoader * value).
Variable new_BusinessMetricsCalculator : DataFrame -> result BusinessMetricsCalculator.
Variable json_dump : value -> dump_outcome.
Variable os : OS.
Variable pd : Pandas.

#[local] Abbreviation run :=
  (export_data load_and_process_data new_BusinessMetricsCalculator json_dump os pd).
#[local] Abbreviation before_writing :=
  (upstream load_and_process_data new_BusinessMetricsCalculator pd).
#[local] Abbreviation path_of cfg := (fun record : string * result value =>
                                        out_path cfg (fst record)).

(** X14: a run writes nothing but its eight files: every other path of the
    output directory, and every path outside it, holds after the run what it
    held before, whether the run succeeds or fails. *)
Theorem export_data_other_files cfg (fs : files) path
  (Hother : forall name, In name output_files -> path <> out_path cfg name) :
  fst (run cfg fs) !! path = fs !! path.
Proof.
  rewrite export_data_loop.
  destruct (before_writing cfg) as [[combined report]|]; [|reflexivity].
  destruct (mkdir_error os (OUTPUT_DIR cfg) fs); [reflexivity|].
  pose proof (write_records_other json_dump os cfg
                (export_records pd cfg combined report) fs path) as Hw.
  destruct (write_records json_dump os cfg (export_records pd cfg combined report) fs)
    as [fs1 [[]|e]]; cbn [fst] in *.
  - unfold io_check. destruct (os_listing os (OUTPUT_DIR cfg) fs1); cbn [fst];
      apply Hw; rewrite export_records_paths; intros Hin;
      apply in_map_iff in Hin as [name [Hname Hin]];
      now apply (Hother name Hin).
  - apply Hw. rewrite export_records_paths. intros Hin.
    apply in_map_iff in Hin as [name [Hname Hin]].
    now apply (Hother name Hin).
Qed.

(** X15: when loading the data, building the combined dataset, constructing
    the calculator or generating the report fails, the run ends with that
    error and no file has been written or changed. *)
Theorem export_data_upstream_failure cfg (fs : files) e :
  (load_and_process_data (DATA_PATH cfg) = Raise e -> run cfg fs = (fs, Raise e)) /\
  (forall loaded,
      load_and_process_data (DATA_PATH cfg) = Ok loaded ->
      combined_dataset pd cfg (fst loaded) = Raise e ->
      run cfg fs = (fs, Raise e)) /\
  (forall loaded combined_data,
      load_and_process_data (DATA_PATH cfg) = Ok loaded ->
      combined_dataset pd cfg (fst loaded) = Ok combined_data ->
      new_BusinessMetricsCalculator combined_data = Raise e ->
      run cfg fs = (fs, Raise e)) /\
  (forall loaded combined_data calc,
      load_and_process_data (DATA_PATH cfg) = Ok loaded ->
      combined_dataset pd cfg (fst loaded) = Ok combined_data ->
      new_BusinessMetricsCalculator combined_data = Ok calc ->
      generate_comprehensive_report calc (ANALYSIS_YEAR cfg) (COMPARISON_YEAR cfg)
      = Raise e ->
      run cfg fs = (fs, Raise e)).
Proof.
  repeat split; intros; rewrite export_data_loop; unfold upstream;
    repeat match goal with
           | H : _ = Ok _ |- _ => rewrite H; clear H; cbn [result_bind]
           | H : _ = Raise _ |- _ => rewrite H; clear H; cbn [result_bind]
           end; reflexivity.
Qed.

(** X16: when the directory can be made, the records before some record are
    encoded and written, and that record cannot be produced, the run ends
    with that record's error; the files of the records before it hold their
    full texts, and the file of the failed record and of every later record
    is as it was before the run. *)
Theorem export_data_stops_at_failed_record cfg (fs : files)
  combined_data report done name e rest texts
  (Hup : before_writing cfg = Ok (combined_data, report))
  (Hmkdir : mkdir_error os (OUTPUT_DIR cfg) fs = None)
  (Hsplit : export_records pd cfg combined_data report
            = done ++ (name, Raise e) :: rest)
  (Hdone : Forall2 (encoded json_dump) done texts)
  (Hos : os_allows os (combine (map (path_of cfg) done) texts) fs) :
  snd (run cfg fs) = Raise e /\
  (forall i record text,
      nth_error done i = Some record -> nth_error texts i = Some text ->
      fst (run cfg fs) !! out_path cfg (fst record) = Some text) /\
  (forall later,
      In later (name :: map fst rest) ->
      fst (run cfg fs) !! out_path cfg later = fs !! out_path cfg later).
Proof.
  pose proof (NoDup_paths cfg _ NoDup_output_files) as Hnd.
  rewrite <- (export_records_paths pd cfg combined_data report), Hsplit, map_app
    in Hnd.
  rewrite export_data_loop, Hup, Hmkdir, Hsplit.
  rewrite (write_records_done json_dump os cfg done texts _ fs Hdone Hos).
  cbn [write_records]. unfold io_bind, io_lift. cbn [fst snd].
  destruct (lookup_after_writes (combine (map (path_of cfg) done) texts) fs)
    as [Hin Hout].
  { rewrite (encoded_paths json_dump) by exact Hdone.
    exact (NoDup_app_front _ _ Hnd). }
  split; [reflexivity|]. split.
  - intros i record text Hi Ht. apply Hin.
    apply (in_combine_nth _ _ i); [|exact Ht].
    now rewrite nth_error_map, Hi.
  - intros later Hlater. apply Hout.
    rewrite (encoded_paths json_dump) by exact Hdone. intros Hfront.
    apply (NoDup_app_disjoint _ _ _ Hnd Hfront).
    cbn [map fst]. destruct Hlater as [<-|Hlater]; [now left | right].
    apply in_map_iff in Hlater as [record [<- Hrec]].
    apply in_map_iff. exists record. split; [reflexivity | exact Hrec].
Qed.

(** X17: when the directory can be made, the records before some record are
    encoded and written, and the encoder fails on that record after its file
    was opened and took what the encoder wrote, the run ends with the
    encoder's error; the files of the records before it hold their full
    texts, the file of that record holds what the encoder wrote before it
    failed, and the files of the later records are as they were before the
    run. *)
Theorem export_data_stops_at_failed_dump cfg (fs : files)
  combined_data report done name data partial e rest texts
  (Hup : before_writing cfg = Ok (combined_data, report))
  (Hmkdir : mkdir_error os (OUTPUT_DIR cfg) fs = None)
  (Hsplit : export_records pd cfg combined_data report
            = done ++ (name, Ok data) :: rest)
  (Hdone : Forall2 (encoded json_dump) done texts)
  (Hos : os_allows os (combine (map (path_of cfg) done) texts) fs)
  (Hdump : json_dump (to_python_types data) = DumpFailed partial e)
  (Hopen : open_error os (out_path cfg name)
             (apply_writes (combine (map (path_of cfg) done) texts) fs) = None)
  (Hwrite : os_write os (out_path cfg name) partial
              (apply_writes (combine (map (path_of cfg) done) texts) fs) = None) :
  snd (run cfg fs) = Raise e /\
  (forall i record text,
      nth_error done i = Some record -> nth_error texts i = Some text ->
      fst (run cfg fs) !! out_path cfg (fst record) = Some text) /\
  fst (run cfg fs) !! out_path cfg name = Some partial /\
  (forall later,
      In later (map fst rest) ->
      fst (run cfg fs) !! out_path cfg later = fs !! out_path cfg later).
Proof.
  pose proof (NoDup_paths cfg _ NoDup_output_files) as Hnd.
  rewrite <- (export_records_paths pd cfg combined_data report), Hsplit, map_app
    in Hnd.
  cbn [map fst] in Hnd.
  change (map (path_of cfg) done ++ out_path cfg name :: map (path_of cfg) rest)
    with (map (path_of cfg) done ++ [out_path cfg name] ++ map (path_of cfg) rest)
    in Hnd.
  rewrite app_assoc in Hnd.
  rewrite export_data_loop, Hup, Hmkdir, Hsplit.
  rewrite (write_records_done json_dump os cfg done texts _ fs Hdone Hos).
  cbn [write_records]. unfold io_bind, io_lift, write_json.
  rewrite Hopen, Hdump, Hwrite. cbn [fst snd].
  change (<[out_path cfg name := partial]>
            (apply_writes (combine (map (path_of cfg) done) texts) fs))
    with (apply_writes [(out_path cfg name, partial)]
            (apply_writes (combine (map (path_of cfg) done) texts) fs)).
  rewrite <- apply_writes_app.
  destruct (lookup_after_writes
              (combine (map (path_of cfg) done) texts ++ [(out_path cfg name, partial)])
              fs) as [Hin Hout].
  { rewrite map_app, (encoded_paths json_dump) by exact Hdone.
    exact (NoDup_app_front _ _ Hnd). }
  split; [reflexivity|]. split; [|split].
  - intros i record text Hi Ht. apply Hin. apply in_or_app. left.
    apply (in_combine_nth _ _ i); [|exact Ht].
    now rewrite nth_error_map, Hi.
  - apply Hin. apply in_or_app. right. now left.
  - intros later Hlater. apply Hout.
    rewrite map_app, (encoded_paths json_dump) by exact Hdone. intros Hfront.
    apply (NoDup_app_disjoint _ _ _ Hnd Hfront).
    apply in_map_iff in Hlater as [record [<- Hrec]].
    apply in_map_iff. exists record. split; [reflexivity | exact Hrec].
Qed.


(** X19: when the output directory, or a directory above it, is a regular
    file, the run ends with an error before any record is written, and no
    file is changed; the same holds when the operating system refuses to
    make the directory. *)
Theorem export_data_mkdir_failure cfg (fs : files) combined_data report e
  (Hup : before_writing cfg = Ok (combined_data, report))
  (Hmkdir : mkdir_error os (OUTPUT_DIR cfg) fs = Some e) :
  run cfg fs = (fs, Raise e) /\
  (is_Some (fs !! OUTPUT_DIR cfg) -> e = OSError "FileExistsError").
Proof.
  split.
  - now rewrite export_data_loop, Hup, Hmkdir.
  - intros Hfile. unfold mkdir_error in Hmkdir.
    rewrite (path_blocked_file fs EmptyString (OUTPUT_DIR cfg)) in Hmkdir
      by exact Hfile.
    now injection Hmkdir as <-.
Qed.

(** X20: when a file cannot be opened, the run ends with that error; the
    files of the records before it hold their full texts, and the file that
    could not be opened and the files of the later records are as they were
    before the run. *)
Theorem export_data_stops_at_failed_open cfg (fs : files)
  combined_data report done name data e rest texts
  (Hup : before_writing cfg = Ok (combined_data, report))
  (Hmkdir : mkdir_error os (OUTPUT_DIR cfg) fs = None)
  (Hsplit : export_records pd cfg combined_data report
            = done ++ (name, Ok data) :: rest)
  (Hdone : Forall2 (encoded json_dump) done texts)
  (Hos : os_allows os (combine (map (path_of cfg) done) texts) fs)
  (Hopen : open_error os (out_path cfg name)
             (apply_writes (combine (map (path_of cfg) done) texts) fs) = Some e) :
  snd (run cfg fs) = Raise e /\
  (forall i record text,
      nth_error done i = Some record -> nth_error texts i = Some text ->
      fst (run cfg fs) !! out_path cfg (fst record) = Some text) /\
  (forall later,
      In later (name :: map fst rest) ->
      fst (run cfg fs) !! out_path cfg later = fs !! out_path cfg later).
Proof.
  pose proof (NoDup_paths cfg _ NoDup_output_files) as Hnd.
  rewrite <- (export_records_paths pd cfg combined_data report), Hsplit, map_app
    in Hnd.
  rewrite export_data_loop, Hup, Hmkdir, Hsplit.
  rewrite (write_records_done json_dump os cfg done texts _ fs Hdone Hos).
  cbn [write_records]. unfold io_bind, io_lift, write_json.
  rewrite Hopen. cbn [fst snd].
  destruct (lookup_after_writes (combine (map (path_of cfg) done) texts) fs)
    as [Hin Hout].
  { rewrite (encoded_paths json_dump) by exact Hdone.
    exact (NoDup_app_front _ _ Hnd). }
  split; [reflexivity|]. split.
  - intros i record text Hi Ht. apply Hin.
    apply (in_combine_nth _ _ i); [|exact Ht].
    now rewrite nth_error_map, Hi.
  - intros later Hlater. apply Hout.
    rewrite (encoded_paths json_dump) by exact Hdone. intros Hfront.
    apply (NoDup_app_disjoint _ _ _ Hnd Hfront).
    cbn [map fst]. destruct Hlater as [<-|Hlater]; [now left | right].
    apply in_map_iff in Hlater as [record [<- Hrec]].
    apply in_map_iff. exists record. split; [reflexivity | exact Hrec].
Qed.

End Failures.

Lemma export_data_other_files_witness :
  fst (export_data example_load empty_calculator constant_dump reliable_os
                   example_pandas config_2023
                   {["EDA_Refactored/data/notes.txt" := "keep"]})
    !! "EDA_Refactored/data/notes.txt"
  = Some "keep".
Proof.
  rewrite (export_data_other_files example_load empty_calculator constant_dump
             reliable_os example_pandas
             config_2023 {["EDA_Refactored/data/notes.txt" := "keep"]}
             "EDA_Refactored/data/notes.txt").
  - reflexivity.
  - intros name Hin. cbn in Hin. intuition (subst; discriminate).
Defined.

Lemma export_data_upstream_failure_witness :
  export_data failing_load empty_calculator constant_dump reliable_os example_pandas
              config_2023 {["EDA_Refactored/data/geo.json" := "old"]}
  = ({["EDA_Refactored/data/geo.json" := "old"]},
     Raise (UpstreamError "no such directory")).
Proof.
  apply (proj1 (export_data_upstream_failure failing_load empty_calculator
                  constant_dump reliable_os example_pandas config_2023
                  {["EDA_Refactored/data/geo.json" := "old"]}
                  (UpstreamError "no such directory"))).
  reflexivity.
Defined.

Lemma export_data_stops_at_failed_record_witness :
  snd (export_data example_load series_monthly_calculator constant_dump
                   reliable_os example_pandas config_2023 ∅)
  = Raise (TypeError "unsupported type: <class 'str'>") /\
  fst (export_data example_load series_monthly_calculator constant_dump
                   reliable_os example_pandas config_2023 ∅)
    !! out_path config_2023 "kpi_metrics.json" = Some "{}" /\
  fst (export_data example_load series_monthly_calculator constant_dump
                   reliable_os example_pandas config_2023 ∅)
    !! out_path config_2023 "geo.json" = None.
Proof.
  destruct (export_data_stops_at_failed_record
              example_load series_monthly_calculator constant_dump
              reliable_os example_pandas config_2023 ∅
              one_order series_monthly_report
              (firstn 1 (export_records example_pandas config_2023 one_order
                                        series_monthly_report))
              "revenue.json" (TypeError "unsupported type: <class 'str'>")
              (skipn 2 (export_records example_pandas config_2023 one_order
                                       series_monthly_report))
              ["{}"])
    as [H1 [H2 H3]].
  - reflexivity.
  - reflexivity.
  - reflexivity.
  - repeat constructor. eexists. split; reflexivity.
  - vm_compute. repeat split.
  - split; [exact H1|]. split.
    + exact (H2 0%nat _ "{}" eq_refl eq_refl).
    + rewrite (H3 "geo.json"); [reflexivity|]. cbn. tauto.
Defined.

Lemma export_data_stops_at_failed_dump_witness :
  snd (export_data example_load empty_calculator strict_dump reliable_os
                   example_pandas config_2023 ∅)
  = Raise (TypeError "keys must be str") /\
  fst (export_data example_load empty_calculator strict_dump reliable_os
                   example_pandas config_2023 ∅)
    !! out_path config_2023 "reviews.json" = Some "{" /\
  fst (export_data example_load empty_calculator strict_dump reliable_os
                   example_pandas config_2023 ∅)
    !! out_path config_2023 "customers.json" = None.
Proof.
  destruct (export_data_stops_at_failed_dump
              example_load empty_calculator strict_dump reliable_os example_pandas
              config_2023 ∅
              one_order (VDict [])
              (firstn 3 (export_records example_pandas config_2023 one_order
                                        (VDict [])))
              "reviews.json"
              (VDict [(KStr "score_counts", VDict [(KInt 5, VInt 1)]);
                      (KStr "average_score", VInt 0);
                      (KStr "total_reviews", VInt 0);
                      (KStr "score_5_percentage", VInt 0);
                      (KStr "score_4_plus_percentage", VInt 0)])
              "{" (TypeError "keys must be str")
              (skipn 4 (export_records example_pandas config_2023 one_order
                                       (VDict [])))
              ["ok"; "ok"; "ok"])
    as [H1 [_ [H3 H4]]].
  - reflexivity.
  - reflexivity.
  - reflexivity.
  - repeat constructor; eexists; split; reflexivity.
  - vm_compute. repeat split.
  - reflexivity.
  - vm_compute. reflexivity.
  - reflexivity.
  - split; [exact H1|]. split; [exact H3|].
    rewrite (H4 "customers.json"); [reflexivity|]. cbn. tauto.
Defined.


Lemma export_data_mkdir_failure_witness :
  export_data example_load empty_calculator constant_dump reliable_os example_pandas
              config_2023 {["EDA_Refactored/data" := "a regular file"]}
  = ({["EDA_Refactored/data" := "a regular file"]}, Raise (OSError "FileExistsError")).
Proof.
  apply (export_data_mkdir_failure example_load empty_calculator constant_dump
           reliable_os example_pandas config_2023
           {["EDA_Refactored/data" := "a regular file"]} one_order (VDict [])
           (OSError "FileExistsError")).
  - reflexivity.
  - vm_compute. reflexivity.
Defined.

Lemma export_data_stops_at_failed_open_witness :
  snd (export_data example_load empty_calculator constant_dump
                   (refusing_os "EDA_Refactored/data/revenue.json") example_pandas
                   config_2023 ∅)
  = Raise (OSError "PermissionError") /\
  fst (export_data example_load empty_calculator constant_dump
                   (refusing_os "EDA_Refactored/data/revenue.json") example_pandas
                   config_2023 ∅)
    !! out_path config_2023 "kpi_metrics.json" = Some "{}" /\
  fst (export_data example_load empty_calculator constant_dump
                   (refusing_os "EDA_Refactored/data/revenue.json") example_pandas
                   config_2023 ∅)
    !! out_path config_2023 "revenue.json" = None.
Proof.
  destruct (export_data_stops_at_failed_open
              example_load empty_calculator constant_dump
              (refusing_os "EDA_Refactored/data/revenue.json") example_pandas
              config_2023 ∅ one_order (VDict [])
              (firstn 1 (export_records example_pandas config_2023 one_order
                                        (VDict [])))
              "revenue.json" (VList []) (OSError "PermissionError")
              (skipn 2 (export_records example_pandas config_2023 one_order
                                       (VDict [])))
              ["{}"])
    as [H1 [H2 H3]].
  - reflexivity.
  - reflexivity.
  - reflexivity.
  - repeat constructor. eexists. split; reflexivity.
  - vm_compute. repeat split.
  - vm_compute. reflexivity.
  - split; [exact H1|]. split.
    + exact (H2 0%nat _ "{}" eq_refl eq_refl).
    + rewrite (H3 "revenue.json"); [reflexivity|]. cbn. tauto.
Defined.
